(** * autogenlib: the generation-request pipeline of [_generator.py]

    A shallow embedding of [src/autogenlib/_generator.py] and the
    properties of its functions: [validate_code], [get_codebase_context],
    [check_if_empty_module_needed] and [generate_code].

    Conventions of the embedding.
    - A Python [str] is a [string] holding its UTF-8 encoding.  Substring
      search, [split], [startswith], [replace], [join] and concatenation
      act on well-formed UTF-8 exactly as they act on code points.
    - A Python [dict] with string keys and string values is a
      [gmap string string]; [d.get(k)] is [d !! k].  The mapping returned
      by [get_all_modules()] is iterated with [.items()], so it is kept as
      the list of its items in iteration order.
    - [None] is the [None] of [option]; Python truthiness is written out
      ([truthy], [dict_truthy]).
    - What the function does to the outside world (cache reads, the call to
      the generation service, [print], [logger.debug]) is recorded as a list
      of events next to the returned value.
    - What the interpreter and the libraries decide ([ast.parse], the
      generation service, the store, [str.isupper] on a character beyond
      ASCII) is a field of [runtime]; nothing is assumed about it. *)

From Stdlib Require Import Ascii.
From stdpp Require Import base option list strings gmap.

(** ** Python string primitives *)

Module Str.

Arguments String.append !_ _ / : simpl nomatch.

(** [s.startswith(p)] *)
Definition startswith (p s : string) : bool := String.prefix p s.

(** [s[n:]] *)
Fixpoint drop (n : nat) (s : string) : string :=
  match n, s with
  | 0, _ => s
  | S _, EmptyString => EmptyString
  | S n', String _ s' => drop n' s'
  end.

(** [sub in s] *)
Fixpoint contains (sub s : string) : bool :=
  String.prefix sub s ||
  match s with
  | EmptyString => false
  | String _ s' => contains sub s'
  end.

(** [s.split(sep)] for a separator of one character, the only use the
    source makes of it (["."] and ["\n"]). *)
Fixpoint split (sep : ascii) (s : string) : list string :=
  match s with
  | EmptyString => [EmptyString]
  | String c s' =>
      if Ascii.eqb c sep then EmptyString :: split sep s'
      else match split sep s' with
           | [] => [String c EmptyString]
           | w :: ws => String c w :: ws
           end
  end.

(** [sep.join(l)] *)
Definition join (sep : string) (l : list string) : string :=
  String.concat sep l.

(** [s.replace(old, new, 1)]: the leftmost occurrence only. *)
Fixpoint replace_first (old new s : string) : string :=
  if String.prefix old s then new +:+ drop (String.length old) s
  else match s with
       | EmptyString => EmptyString
       | String c s' => String c (replace_first old new s')
       end.

(** Whitespace in the sense of [str.isspace]: the length in bytes of the
    whitespace character [s] begins with, [0] when it begins with none.
    U+0009..000D, U+001C..0020, U+0085, U+00A0, U+1680, U+2000..200A,
    U+2028, U+2029, U+202F, U+205F and U+3000. *)
Definition ascii_space (c : ascii) : bool :=
  let n := N_of_ascii c in
  ((9 <=? n) && (n <=? 13) || (28 <=? n) && (n <=? 32))%N.

Definition space_width (s : string) : nat :=
  match s with
  | EmptyString => 0
  | String c r =>
      if ascii_space c then 1
      else match c, r with
           | "194"%char, String d _ =>
               let n := N_of_ascii d in
               if ((n =? 133) || (n =? 160))%N then 2 else 0
           | "225"%char, String "154"%char (String "128"%char _) => 3
           | "226"%char, String "128"%char (String e _) =>
               let n := N_of_ascii e in
               if ((128 <=? n) && (n <=? 138) || (n =? 168) ||
                   (n =? 169) || (n =? 175))%N
               then 3 else 0
           | "226"%char, String "129"%char (String "159"%char _) => 3
           | "227"%char, String "128"%char (String "128"%char _) => 3
           | _, _ => 0
           end
  end.

(** [s.lstrip()]; [skip] counts the bytes of the current whitespace
    character still to be dropped. *)
Fixpoint lstrip_from (skip : nat) (s : string) : string :=
  match s with
  | EmptyString => EmptyString
  | String _ s' =>
      match skip with
      | S k => lstrip_from k s'
      | 0 => match space_width s with
             | 0 => s
             | S k => lstrip_from k s'
             end
      end
  end.

Definition lstrip (s : string) : string := lstrip_from 0 s.

(** [s.rstrip()]: a suffix is dropped when all of it is whitespace. *)
Definition all_space (s : string) : bool :=
  match lstrip s with EmptyString => true | _ => false end.

Fixpoint rstrip (s : string) : string :=
  match s with
  | EmptyString => EmptyString
  | String c s' => if all_space s then EmptyString else String c (rstrip s')
  end.

(** [s.strip()] *)
Definition strip (s : string) : string := rstrip (lstrip s).

(** [c.isupper()] for an ASCII character [c]: [A]..[Z]. *)
Definition isupper (c : ascii) : bool :=
  let n := N_of_ascii c in ((65 <=? n) && (n <=? 90))%N.

(** [s[0]] for a non-empty text: the bytes of its first code point, as
    many as its leading byte announces. *)
Definition head_width (c : ascii) : nat :=
  let n := N_of_ascii c in
  if (n <? 192)%N then 1
  else if (n <? 224)%N then 2
  else if (n <? 240)%N then 3
  else 4.

Definition head_char (s : string) : string :=
  match s with
  | EmptyString => EmptyString
  | String c _ => String.substring 0 (head_width c) s
  end.

(** Truthiness of a [str]: non-empty. *)
Definition truthy (s : string) : bool :=
  match s with EmptyString => false | _ => true end.

(** Truthiness of a value that is a [str] or [None]. *)
Definition opt_truthy (o : option string) : bool :=
  match o with Some s => truthy s | None => false end.

(** [sub] occurs in [s]: the specification of [contains]. *)
Definition Occurs (sub s : string) : Prop :=
  exists pre post, s = pre +:+ sub +:+ post.

End Str.

Import Str.

(** The newline character and string. *)
Definition LF : ascii := "010"%char.
Definition nl : string := String LF EmptyString.

(** ** Dictionaries *)

Abbreviation dict := (gmap string string).

(** Truthiness of a value that is a [dict] or [None]. *)
Definition dict_truthy (d : option dict) : bool :=
  match d with
  | Some m => bool_decide (m <> ∅)
  | None => false
  end.

(** [d.get(k)] on a value that is a [dict] (the source calls it only after
    the truthiness test, hence never on [None]). *)
Definition dict_get (d : option dict) (k : string) : option string :=
  match d with
  | Some m => m !! k
  | None => None
  end.

(** [d.get(k, dflt)] *)
Definition dict_get_default (d : option dict) (k dflt : string) : string :=
  default dflt (dict_get d k).

(** ** [check_if_empty_module_needed] *)

(** [parts[i]] for an index the source has checked to be in range. *)
Definition part (parts : list string) (i : nat) : string :=
  nth i parts EmptyString.

(** The guard of lines 63-67: the module is used directly. *)
Definition direct_usage (parts : list string) (code : string) : bool :=
  contains (part parts 1 +:+ ".") code &&
  negb (forallb (fun line => contains (part parts 1 +:+ ".") line)
          (List.filter (fun line => contains (part parts 1 +:+ ".") line
                               && contains "import" line)
                  (split LF code))).

Definition check_if_empty_module_needed
    (fullname : string) (caller_info : option dict) : bool :=
  if negb (dict_truthy caller_info)
     || negb (opt_truthy (dict_get caller_info "code"))
  then false
  else
    let parts := split "."%char fullname in
    if length parts <=? 2 then false
    else
      let code := dict_get_default caller_info "code" "" in
      if direct_usage parts code then false
      else
        let parent_module := "from " +:+ part parts 0 +:+ "." +:+ part parts 1 in
        let child_modules :=
          List.filter (fun line => contains parent_module line
                              && contains "import" line)
                 (split LF code) in
        0 <? length child_modules.

(** ** Exceptions, results and recorded effects *)

(** The exception classes that the modelled code can meet; all of them are
    subclasses of [Exception]. *)
Inductive exc_class : Set :=
  | SyntaxError | IndentationError | TabError
  | ValueError | IndexError | AttributeError
  | RecursionError | MemoryError | UnicodeEncodeError
  | OpenAIError.

Record exc : Set := Exc { exc_cls : exc_class; exc_msg : string }.

(** [isinstance(e, SyntaxError)]: the class and its two subclasses. *)
Definition is_SyntaxError (e : exc) : bool :=
  match exc_cls e with
  | SyntaxError | IndentationError | TabError => true
  | _ => false
  end.

Inductive result (A : Type) : Type :=
  | Return (a : A)
  | Raise (e : exc).
Arguments Return {A} a.
Arguments Raise {A} e.

(** The request sent with [client.chat.completions.create]; the client is
    built from [api_key] and [base_url] just before.  The temperature is
    the constant [0.7] of the source, kept as its decimal text. *)
Record request : Set := Request {
  req_api_key : string;
  req_base_url : option string;
  req_model : string;
  req_system : string;
  req_user : string;
  req_temperature : string
}.

(** [response.choices[i].message.content], a [str] or [None]. *)
Record choice : Set := Choice { message_content : option string }.
Record response : Set := Response { choices : list choice }.

Inductive event : Set :=
  | CacheGetCachedPrompt (module : string)
  | CacheGetAllModules
  | LogDebug (msg : string)
  | ServiceCall (req : request)
  | Print (msg : string).

(** What surrounds the module: the process environment, the module store
    of [_cache.py] (read through [get_all_modules] and
    [get_cached_prompt]), the parser behind [ast.parse], the generation
    service, and the Unicode database of the interpreter, which
    [str.isupper] consults for a character beyond ASCII. *)
Record runtime : Type := Runtime {
  environ : dict;
  get_all_modules : list (string * dict);
  get_cached_prompt : string -> option string;
  ast_parse : string -> result unit;
  chat_completions_create : request -> result response;
  str_isupper : string -> bool
}.

(** A computation that returns or raises, and records its effects. *)
Definition io (A : Type) : Type := (result A * list event)%type.

Definition io_result {A} (m : io A) : result A := fst m.
Definition io_trace {A} (m : io A) : list event := snd m.

Definition ret {A} (a : A) : io A := (Return a, []).
Definition raise {A} (e : exc) : io A := (Raise e, []).
Definition emit (ev : event) : io unit := (Return tt, [ev]).
Definition lift {A} (r : result A) : io A := (r, []).

Definition bind {A B} (m : io A) (k : A -> io B) : io B :=
  match fst m with
  | Return a => (fst (k a), snd m ++ snd (k a))
  | Raise e => (Raise e, snd m)
  end.

(** [try: m  except Exception as e: h e] *)
Definition try_except {A} (m : io A) (h : exc -> io A) : io A :=
  match fst m with
  | Return a => m
  | Raise e => (fst (h e), snd m ++ snd (h e))
  end.

Notation "x <- m ;; k" := (bind m (fun x => k))
  (at level 100, m at next level, right associativity).
Notation "m ;;; k" := (bind m (fun _ => k))
  (at level 100, right associativity).

(** ** [validate_code] *)

Definition validate_code (rt : runtime) (code : string) : result bool :=
  match ast_parse rt code with
  | Return _ => Return true
  | Raise e => if is_SyntaxError e then Return false else Raise e
  end.

(** ** [get_codebase_context] *)

(** The text appended for one item of the mapping (lines 32-33). *)
Definition module_block (module_name code : string) : string :=
  "# Module: " +:+ module_name +:+ nl +:+ "```python" +:+ nl +:+
  code +:+ nl +:+ "```" +:+ nl +:+ nl.

Definition add_module (context : string) (item : string * dict) : string :=
  match snd item !! "code" with
  | Some code => context +:+ module_block (fst item) code
  | None => context
  end.

Definition codebase_context_of (modules : list (string * dict)) : string :=
  match modules with
  | [] => ""
  | _ =>
      fold_left add_module modules
        ("Here is the existing codebase for reference:" +:+ nl +:+ nl)
  end.

Definition get_codebase_context (rt : runtime) : io string :=
  emit CacheGetAllModules ;;;
  ret (codebase_context_of (get_all_modules rt)).

(** ** [generate_code]: the prompt (lines 82-249) *)

(** [cached_prompt or description] *)
Definition py_or (o : option string) (dflt : string) : string :=
  match o with
  | Some s => if truthy s then s else dflt
  | None => dflt
  end.

(** Lines 106-125. *)
Definition relevant_parts_of (fullname code : string) : list string :=
  let module_parts := split "."%char fullname in
  if 2 <=? length module_parts then
    let module_prefix :=
      "from " +:+ part module_parts 0 +:+ "." +:+ part module_parts 1 in
    let import_lines :=
      List.filter (fun line => contains module_prefix line) (split LF code) in
    import_lines ++
    (if 3 <=? length module_parts then
       let func_name := part module_parts 2 in
       List.filter
         (fun line => contains func_name line
                      && negb (startswith "import " line
                               || startswith "from " line))
         (split LF code)
     else [])
  else [].

(** Lines 129-144. *)
Definition caller_context_snippets
    (caller_info : option dict) (relevant_parts : list string)
    (code : string) : string :=
    join nl
      [ "";
        "            Here is the code that is importing and using this module/function:";
        "            ```python";
        "            # File: " +:+ (dict_get_default caller_info "filename" "unknown");
        "            # --- Relevant snippets ---";
        "            " +:+ (join nl relevant_parts);
        "            ```";
        "            ";
        "            And here is the full context:";
        "            ```python";
        "            " +:+ code;
        "            ```";
        "            ";
        "            Analyze how the requested functionality will be used in the code snippets above.";
        "            Pay special attention to parameter types, return values, and expected behavior.";
        "            " ].

(** Lines 146-155. *)
Definition caller_context_full
    (caller_info : option dict) (code : string) : string :=
    join nl
      [ "";
        "            Here is the code that is importing this module/function:";
        "            ```python";
        "            # File: " +:+ (dict_get_default caller_info "filename" "unknown");
        "            " +:+ code;
        "            ```";
        "            ";
        "            Analyze how the requested functionality will be used in this code.";
        "            Pay special attention to parameter types, return values, and expected behavior.";
        "            " ].

(** Whether lines 102-157 run: [caller_info and caller_info.get("code")]. *)
Definition has_caller_code (caller_info : option dict) : bool :=
  dict_truthy caller_info && opt_truthy (dict_get caller_info "code").

(** The value of [caller_context] after lines 101-155. *)
Definition caller_context_of
    (fullname : string) (caller_info : option dict) : string :=
  if has_caller_code caller_info then
    let code := dict_get_default caller_info "code" "" in
    let relevant_parts := relevant_parts_of fullname code in
    match relevant_parts with
    | _ :: _ => caller_context_snippets caller_info relevant_parts code
    | [] => caller_context_full caller_info code
    end
  else "".

(** [str(caller_info.get('filename'))] inside the f-string of line 157. *)
Definition str_of_opt (o : option string) : string := default "None" o.

(** Lines 162-168. *)
Definition empty_module_instruction (fullname : string) : string :=
    join nl
      [ "";
        "        IMPORTANT: Based on the calling code analysis, this module '" +:+ fullname +:+ "' appears to be ";
        "        primarily used for namespacing/structural purposes rather than for its own functionality.";
        "        ";
        "        If appropriate, you may generate a minimal module with just necessary imports and docstrings,";
        "        but without substantial implementation if the code doesn't show direct usage of this module.";
        "        " ].

(** The value of [empty_module_context] after lines 160-168. *)
Definition empty_module_context_of
    (fullname : string) (is_empty_module : bool) : string :=
  if is_empty_module then empty_module_instruction fullname else "".

(** [function_name[0].isupper()]: for an ASCII initial, whether it is one
    of [A]..[Z]; for any other initial, what the Unicode database of the
    interpreter says of that character.  The source evaluates it for a
    non-empty name only. *)
Definition initial_isupper (rt : runtime) (function_name : string) : bool :=
  match function_name with
  | String c _ =>
      if (N_of_ascii c <? 128)%N then isupper c
      else str_isupper rt (head_char function_name)
  | EmptyString => false
  end.

(** ["function" if not function_name[0].isupper() else "class"] *)
Definition symbol_kind (rt : runtime) (function_name : string) : string :=
  if negb (initial_isupper rt function_name) then "function" else "class".

Section Templates.

Variable rt : runtime.
Variables (module_name function_name : string).
Variables (current_description description existing_code : string).
Variables (codebase_context caller_context empty_module_context : string).

(** Lines 172-203: extend an existing module. *)
Definition prompt_extend : string :=
  join nl
    [ "";
      "        You are extending an existing Python module named '" +:+ module_name +:+ "'.";
      "        ";
      "        The overall purpose of this library is:";
      "        " +:+ current_description;
      "        ";
      "        Here is the existing code for this module:";
      "        ```python";
      "        " +:+ existing_code;
      "        ```";
      "        ";
      "        " +:+ codebase_context;
      "        ";
      "        " +:+ caller_context;
      "        ";
      "        " +:+ empty_module_context;
      "        ";
      "        I need you to add a new " +:+ (symbol_kind rt function_name) +:+ " named '" +:+ function_name +:+ "' that implements the following functionality:";
      "        " +:+ description;
      "        ";
      "        IMPORTANT REQUIREMENTS:";
      "        1. Maintain consistency with the existing code style, naming patterns, and error handling";
      "        2. Keep all existing functions and classes intact";
      "        3. Add comprehensive docstrings with parameters, returns, and exceptions";
      "        4. Use type hints for better code clarity when appropriate";
      "        5. Analyze the caller code carefully to ensure the function works with existing data structures";
      "        6. If analysis suggests this is purely for structural imports with no actual functionality needed,";
      "           provide minimal implementation with appropriate comments";
      "        ";
      "        Return the COMPLETE module code including both existing functionality and the new function.";
      "        Your response must be ONLY valid Python code without any explanations or markdown.";
      "        " ].

(** Lines 205-226: a new module with one symbol. *)
Definition prompt_new_module : string :=
  join nl
    [ "";
      "        Create a Python module named '" +:+ module_name +:+ "' with a " +:+ (symbol_kind rt function_name) +:+ " named '" +:+ function_name +:+ "' that implements the following functionality:";
      "        " +:+ description;
      "        ";
      "        " +:+ codebase_context;
      "        ";
      "        " +:+ caller_context;
      "        ";
      "        " +:+ empty_module_context;
      "        ";
      "        IMPORTANT REQUIREMENTS:";
      "        1. Start with a clear module docstring explaining the purpose";
      "        2. Include detailed docstrings with parameters, returns, and exceptions";
      "        3. Use type hints when appropriate for clarity";
      "        4. Implement robust error handling with specific exception types";
      "        5. Follow strict PEP 8 style guidelines";
      "        6. Analyze the caller context carefully to match the expected usage pattern";
      "        7. If analysis suggests this is purely for structural imports with no actual functionality needed,";
      "           provide minimal implementation with appropriate comments";
      "        ";
      "        Your response must be ONLY valid Python code without any explanations or markdown.";
      "        " ].

(** Lines 228-249: a new package. *)
Definition prompt_new_package : string :=
  join nl
    [ "";
      "        Create a Python package named '" +:+ module_name +:+ "' that implements the following functionality:";
      "        " +:+ description;
      "        ";
      "        " +:+ codebase_context;
      "        ";
      "        " +:+ caller_context;
      "        ";
      "        " +:+ empty_module_context;
      "        ";
      "        IMPORTANT REQUIREMENTS:";
      "        1. Start with a clear module docstring explaining the purpose";
      "        2. Implement functions/classes that fulfill the described purpose";
      "        3. Include detailed docstrings with parameters, returns, and exceptions";
      "        4. Use type hints when appropriate for clarity";
      "        5. Follow strict PEP 8 style guidelines";
      "        6. Analyze the caller context to structure the package in a way that matches expected usage";
      "        7. If analysis suggests this is purely for structural imports with no actual functionality needed,";
      "           provide minimal implementation with appropriate comments";
      "        ";
      "        Do not generate any additional Python files. Provide only the Python code without explanations.";
      "        " ].

End Templates.

(** Which of the three templates lines 171-249 select. *)
Inductive template : Set := Extend | NewModule | NewPackage.

Definition select_template
    (function_name existing_code : option string) : template :=
  if opt_truthy function_name && opt_truthy existing_code then Extend
  else if opt_truthy function_name then NewModule
  else NewPackage.

(** [function_name] of line 87. *)
Definition function_name_of (parts : list string) : option string :=
  if 2 <? length parts then Some (part parts 2) else None.

(** [module_to_check] of line 93. *)
Definition module_to_check_of (fullname : string) : string :=
  join "." (take 2 (split "."%char fullname)).

(** The prompt as a function of the request and of what the two cache
    reads returned. *)
Definition prompt_of
    (rt : runtime) (description fullname : string) (existing_code : option string)
    (caller_info : option dict) (cached_prompt : option string)
    (codebase_context : string) : string :=
  let parts := split "."%char fullname in
  let module_name := part parts 1 in
  let function_name := function_name_of parts in
  let is_empty_module := check_if_empty_module_needed fullname caller_info in
  let current_description := py_or cached_prompt description in
  let caller_context := caller_context_of fullname caller_info in
  let empty_module_context :=
    empty_module_context_of fullname is_empty_module in
  match select_template function_name existing_code with
  | Extend =>
      prompt_extend rt module_name (default "" function_name)
        current_description description (default "" existing_code)
        codebase_context caller_context empty_module_context
  | NewModule =>
      prompt_new_module rt module_name (default "" function_name)
        description
        codebase_context caller_context empty_module_context
  | NewPackage =>
      prompt_new_package module_name description
        codebase_context caller_context empty_module_context
  end.

(** Lines 86-249 with their effects: the two cache reads and the debug
    message. *)
Definition construct_prompt
    (rt : runtime) (description fullname : string)
    (existing_code : option string) (caller_info : option dict) : io string :=
  let module_to_check := module_to_check_of fullname in
  cached_prompt <-
    (emit (CacheGetCachedPrompt module_to_check) ;;;
     ret (get_cached_prompt rt module_to_check)) ;;
  codebase_context <- get_codebase_context rt ;;
  (if has_caller_code caller_info then
     emit (LogDebug ("Including caller context from " +:+
                     str_of_opt (dict_get caller_info "filename")))
   else ret tt) ;;;
  ret (prompt_of rt description fullname existing_code caller_info
         cached_prompt codebase_context).

(** ** [generate_code]: the request (lines 251-320) *)

Definition system_message : string :=
  "You are an expert Python code generator specializing in creating modules on-demand. " +:+
  "Your mission is to analyze context thoroughly and produce high-quality Python code " +:+
  "that seamlessly integrates with existing codebase." +:+ nl +:+ nl +:+
  "1. CONTEXT ANALYSIS (CRUCIAL):" +:+ nl +:+
  "- Deeply analyze caller code to understand exact data structures, types, and usage patterns" +:+ nl +:+
  "- Pay special attention to how the imported function will be used - parameter types, return values" +:+ nl +:+
  "- Identify naming conventions, coding style, and error handling approaches in existing code" +:+ nl +:+
  "- Determine if the import is simply a structural one (nested module) that doesn't require actual code" +:+ nl +:+ nl +:+
  "2. CODE GENERATION PRINCIPLES:" +:+ nl +:+
  "- Follow strict PEP 8 standards with consistent formatting" +:+ nl +:+
  "- Use only Python standard library (no third-party packages)" +:+ nl +:+
  "- Only import modules already defined within this library" +:+ nl +:+
  "- Create efficient implementations that handle edge cases" +:+ nl +:+ nl +:+
  "3. EMPTY MODULE DETECTION:" +:+ nl +:+
  "- If the import appears to be a nested/structural import and analysis of caller code suggests " +:+
  "no actual functionality is needed, return an empty module with just appropriate comments" +:+ nl +:+
  "- For example, if code shows `from autogenlib.crypto.hash import md5` but doesn't show usage " +:+
  "of autogenlib.crypto directly, the crypto module might just be organizational" +:+ nl +:+ nl +:+
  "RESPONSE FORMAT:" +:+ nl +:+
  "Provide ONLY valid Python codeâ€”no explanations, markdown, or surrounding text. " +:+
  "The code should be ready to execute immediately.".

(** Lines 301-313: the fence markers are removed from the answer. *)
Definition extract_code (content : string) : string :=
  let code := strip content in
  let code :=
    if startswith "```python" code then
      replace_first "```" "" (replace_first "```python" "" code)
    else if startswith "```" code then
      replace_first "```" "" (replace_first "```" "" code)
    else code in
  strip code.

(** [response.choices[0].message.content.strip] can fail twice before
    [strip] runs. *)
Definition first_content (r : response) : result string :=
  match choices r with
  | [] => Raise (Exc IndexError "list index out of range")
  | c :: _ =>
      match message_content c with
      | Some s => Return s
      | None =>
          Raise (Exc AttributeError
                   "'NoneType' object has no attribute 'strip'")
      end
  end.

Definition call_service (rt : runtime) (req : request) : io response :=
  emit (ServiceCall req) ;;; lift (chat_completions_create rt req).

(** The body of the [try] block. *)
Definition request_code (rt : runtime) (prompt : string) : io (option string) :=
  let api_key := environ rt !! "OPENAI_API_KEY" in
  if negb (opt_truthy api_key) then
    raise (Exc ValueError
             "Please set the OPENAI_API_KEY environment variable.")
  else
    let base_url := environ rt !! "OPENAI_API_BASE_URL" in
    let model := default "gpt-4.1" (environ rt !! "OPENAI_MODEL") in
    response <-
      call_service rt
        {| req_api_key := default "" api_key;
           req_base_url := base_url;
           req_model := model;
           req_system := system_message;
           req_user := prompt;
           req_temperature := "0.7" |} ;;
    content <- lift (first_content response) ;;
    let code := extract_code content in
    valid <- lift (validate_code rt code) ;;
    if valid : bool then ret (Some code)
    else emit (Print "Generated code is not valid.") ;;; ret None.

(** The [except Exception as e] clause. *)
Definition on_exception (e : exc) : io (option string) :=
  emit (Print ("Error generating code: " +:+ exc_msg e)) ;;; ret None.

Definition generate_code
    (rt : runtime) (description fullname : string)
    (existing_code : option string) (caller_info : option dict)
    : io (option string) :=
  let parts := split "."%char fullname in
  if length parts <? 2 then ret None
  else
    prompt <-
      construct_prompt rt description fullname existing_code caller_info ;;
    try_except (request_code rt prompt) on_exception.

(** A caller record with both fields. *)
Definition caller_of (filename code : string) : option dict :=
  Some (<["filename" := filename]> (<["code" := code]> ∅)).

(** ** Notions used in the statements *)

Definition is_store_event (ev : event) : bool :=
  match ev with
  | CacheGetCachedPrompt _ | CacheGetAllModules => true
  | _ => false
  end.

Definition is_service_call (ev : event) : bool :=
  match ev with ServiceCall _ => true | _ => false end.

(** The events of a trace that are reads or writes of the module store,
    and those that are calls of the generation service. *)
Definition store_events (t : list event) : list event :=
  List.filter is_store_event t.
Definition service_calls (t : list event) : list event :=
  List.filter is_service_call t.

(** The request that [request_code] sends for a prompt. *)
Definition request_for (rt : runtime) (prompt : string) : request :=
  {| req_api_key := default "" (environ rt !! "OPENAI_API_KEY");
     req_base_url := environ rt !! "OPENAI_API_BASE_URL";
     req_model := default "gpt-4.1" (environ rt !! "OPENAI_MODEL");
     req_system := system_message;
     req_user := prompt;
     req_temperature := "0.7" |}.

(** The prompt that [generate_code] constructs for a request. *)
Definition constructed_prompt
    (rt : runtime) (description fullname : string)
    (existing_code : option string) (caller_info : option dict) : string :=
  prompt_of rt description fullname existing_code caller_info
    (get_cached_prompt rt (module_to_check_of fullname))
    (codebase_context_of (get_all_modules rt)).

(** The prompt of a request embeds the library purpose: the cached
    description when there is one and the supplied description otherwise. *)
Definition embeds_purpose
    (rt : runtime) (description fullname : string)
    (existing_code : option string) (caller_info : option dict) : Prop :=
  contains
    (py_or (get_cached_prompt rt (module_to_check_of fullname)) description)
    (constructed_prompt rt description fullname existing_code caller_info)
  = true.

(** The opening words of the instruction of lines 163-167. *)
Definition instruction_opening : string :=
  "IMPORTANT: Based on the calling code analysis".

(** The name and the code of a stored module that has code do not hold
    [mark]. *)
Definition module_free_of (mark : string) (item : string * dict) : bool :=
  match snd item !! "code" with
  | Some code => negb (contains mark (fst item)) && negb (contains mark code)
  | None => true
  end.

(** None of the texts that a request brings holds [mark]: the description,
    the dotted name, the existing code, the cached description, the name
    and code of the stored modules that have code, the code and the file
    name of the caller. *)
Definition request_free_of
    (mark : string) (rt : runtime) (description fullname : string)
    (existing_code : option string) (caller_info : option dict) : bool :=
  negb (contains mark description)
  && negb (contains mark fullname)
  && negb (contains mark (default "" existing_code))
  && negb (contains mark
             (default "" (get_cached_prompt rt (module_to_check_of fullname))))
  && forallb (module_free_of mark) (get_all_modules rt)
  && negb (contains mark (dict_get_default caller_info "code" ""))
  && negb (contains mark (dict_get_default caller_info "filename" "unknown")).

(** The closing fence, and the opening fence with its language tag. *)
Definition fence : string := "```".
Definition python_fence : string := "```python".

(** Fence stripping for one answer: its trimmed content being an opening
    fence with the tag, the inner text and a closing fence, the extracted
    code is the inner text, trimmed. *)
Definition fence_stripped (content tag inner : string) : Prop :=
  strip content = fence +:+ tag +:+ inner +:+ fence ->
  extract_code content = strip inner.

(** ** Texts made of fixed words and interpolated values *)

(** A template, once its lines are joined, is a sequence of fixed texts
    and interpolated values. *)
Inductive piece : Set :=
  | Lit (s : string)
  | Var (s : string).

Definition piece_text (p : piece) : string :=
  match p with Lit s | Var s => s end.

Fixpoint render (ps : list piece) : string :=
  match ps with
  | [] => ""
  | p :: ps' => piece_text p +:+ render ps'
  end.

(** [c in s] for one character. *)
Fixpoint mem (c : ascii) (s : string) : bool :=
  match s with
  | EmptyString => false
  | String d s' => Ascii.eqb d c || mem c s'
  end.

(** Some non-empty end of [s] is a beginning of [mark]. *)
Fixpoint overlaps (mark s : string) : bool :=
  match s with
  | EmptyString => false
  | String _ s' => String.prefix s mark || overlaps mark s'
  end.

(** [s] begins with a character that [mark] does not have. *)
Definition starts_outside (mark s : string) : bool :=
  match s with
  | String c _ => negb (mem c mark)
  | EmptyString => false
  end.

(** The fixed texts of a sequence leave no room for [mark]: none holds
    it, none that precedes a value ends with a beginning of it, and each
    one that follows a value begins with a character foreign to it. *)
Fixpoint safe (mark : string) (ps : list piece) : bool :=
  match ps with
  | [] => true
  | Lit s :: rest =>
      negb (contains mark s)
      && match rest with
         | [] => true
         | Var _ :: _ => negb (overlaps mark s)
         | Lit _ :: _ => false
         end
      && safe mark rest
  | Var _ :: rest =>
      match rest with
      | [] => true
      | Lit s :: _ => starts_outside mark s
      | Var _ :: _ => false
      end
      && safe mark rest
  end.

(** An interpolated value does not hold [mark]. *)
Definition piece_free (mark : string) (p : piece) : Prop :=
  match p with
  | Lit _ => True
  | Var v => contains mark v = false
  end.

(** ** Test doubles and sample inputs *)

(** The caller source of the two examples of the specification. *)
Definition import_only : string := "from lib.crypto import hash".
Definition import_and_use : string :=
  "from lib.crypto import hash" +:+ nl +:+ "crypto.hash.md5(x)".

(** A stand-in for [ast.parse]: a text is accepted when its round
    brackets are balanced, and rejected with [SyntaxError] otherwise. *)
Fixpoint balanced (depth : nat) (s : string) : bool :=
  match s with
  | EmptyString => depth =? 0
  | String "("%char s' => balanced (S depth) s'
  | String ")"%char s' =>
      match depth with
      | 0 => false
      | S d => balanced d s'
      end
  | String _ s' => balanced depth s'
  end.

Definition bracket_parse (code : string) : result unit :=
  if balanced 0 code then Return tt
  else Raise (Exc SyntaxError "invalid syntax").

(** A stand-in for the Unicode database: it knows the capitals of the
    Latin-1 supplement, U+00C0..U+00DE without the multiplication sign
    U+00D7. *)
Definition latin1_isupper (c : string) : bool :=
  match c with
  | String "195"%char (String d EmptyString) =>
      let n := N_of_ascii d in
      ((128 <=? n) && (n <=? 158) && negb (n =? 151))%N
  | _ => false
  end.

(** A service that answers every request with the same text. *)
Definition constant_service (content : string) (req : request)
    : result response :=
  Return (Response [Choice (Some content)]).

(** A runtime with a credential (or none), a store holding [modules] and
    one description for every module, and a service answering [content]. *)
Definition sample_runtime
    (api_key cached : option string) (modules : list (string * dict))
    (content : string) : runtime :=
  {| environ :=
       match api_key with
       | Some k => <["OPENAI_API_KEY" := k]> ∅
       | None => ∅
       end;
     get_all_modules := modules;
     get_cached_prompt := fun _ => cached;
     ast_parse := bracket_parse;
     chat_completions_create := constant_service content;
     str_isupper := latin1_isupper |}.

(** A store with two modules, the second of which has no [code] field. *)
Definition sample_modules : list (string * dict) :=
  [ ("lib.text", <["code" := "def slugify(title): return title.lower()"]> ∅);
    ("lib.crypto", <["prompt" := "Hash functions"]> ∅) ].

(** The requirement that every template ends its list with. *)
Definition structural_requirement : string :=
  "If analysis suggests this is purely for structural imports with no actual functionality needed,".

(** An answer whose inner text holds a fence marker of its own. *)
Definition fenced_answer : string :=
  python_fence +:+ nl +:+ "s = '```'" +:+ nl +:+ fence.
Definition fenced_inner : string := nl +:+ "s = '```'" +:+ nl.

(** A runtime with a credential and an empty store, for a given parser
    and a given service. *)
Definition custom_runtime
    (parse : string -> result unit)
    (service : request -> result response) : runtime :=
  {| environ := <["OPENAI_API_KEY" := "k"]> ∅;
     get_all_modules := [];
     get_cached_prompt := fun _ => None;
     ast_parse := parse;
     chat_completions_create := service;
     str_isupper := latin1_isupper |}.

(** A service that cannot be reached, and one that answers with a given
    response. *)
Definition failing_service (req : request) : result response :=
  Raise (Exc OpenAIError "Connection error.").
Definition reply_service (resp : response) (req : request)
    : result response :=
  Return resp.

(** A parser that gives up on every text. *)
Definition exhausted_parse (code : string) : result unit :=
  Raise (Exc RecursionError "maximum recursion depth exceeded").

(** A chain of attribute accesses, [a.a.a] and so on: [a] after [n] times
    [a.], valid Python of nesting depth [n]. *)
Fixpoint attribute_chain (n : nat) : string :=
  match n with
  | 0 => "a"
  | S n' => "a." +:+ attribute_chain n'
  end.

Fixpoint count (c : ascii) (s : string) : nat :=
  match s with
  | EmptyString => 0
  | String d s' => (if Ascii.eqb d c then 1 else 0) + count c s'
  end.

(** A stand-in for a parser with a bounded stack, as that of CPython: a
    text with [limit] attribute accesses or more exhausts it, which raises
    [RecursionError]; any other text is judged by its brackets. *)
Definition bounded_parse (limit : nat) (code : string) : result unit :=
  if limit <=? count "."%char code then
    Raise (Exc RecursionError "maximum recursion depth exceeded")
  else bracket_parse code.

(** * Properties *)

(** ** Strings *)

Section StringFacts.

Implicit Types s t x pre post : string.

Lemma app_nil_r s : s +:+ "" = s.
Proof. induction s as [|c s IH]; simpl; [reflexivity | now rewrite IH]. Qed.

Lemma app_assoc s t x : (s +:+ t) +:+ x = s +:+ t +:+ x.
Proof. induction s as [|c s IH]; simpl; [reflexivity | now rewrite IH]. Qed.

Lemma prefix_nil s : String.prefix "" s = true.
Proof. now destruct s. Qed.

Lemma prefix_cons a x b s :
  String.prefix (String a x) (String b s) =
  if ascii_dec a b then String.prefix x s else false.
Proof. reflexivity. Qed.

Lemma prefix_app x s : String.prefix x (x +:+ s) = true.
Proof.
  induction x as [|c x IH]; simpl; [apply prefix_nil |].
  destruct (ascii_dec c c); [exact IH | congruence].
Qed.

Lemma prefix_drop x : forall s,
  String.prefix x s = true -> s = x +:+ drop (String.length x) s.
Proof.
  induction x as [|c x IH]; intros s H; [reflexivity |].
  destruct s as [|d s]; simpl in H; [discriminate |].
  destruct (ascii_dec c d) as [->|]; [| discriminate].
  simpl. f_equal. now apply IH.
Qed.

Lemma drop_app x s : drop (String.length x) (x +:+ s) = s.
Proof. induction x as [|c x IH]; simpl; [reflexivity | exact IH]. Qed.

Lemma Occurs_refl x : Occurs x x.
Proof. exists "", "". simpl. now rewrite app_nil_r. Qed.

Lemma Occurs_app_r x s t : Occurs x t -> Occurs x (s +:+ t).
Proof.
  intros (pre & post & ->). exists (s +:+ pre), post.
  now rewrite app_assoc.
Qed.

Lemma Occurs_app_l x s t : Occurs x s -> Occurs x (s +:+ t).
Proof.
  intros (pre & post & ->). exists pre, (post +:+ t).
  now rewrite !app_assoc.
Qed.

Lemma Occurs_trans x s t : Occurs x s -> Occurs s t -> Occurs x t.
Proof.
  intros Hx (pre & post & ->).
  now apply Occurs_app_r, Occurs_app_l.
Qed.

Lemma Occurs_cons x c s : Occurs x s -> Occurs x (String c s).
Proof. apply (Occurs_app_r x (String c "") s). Qed.

Lemma prefix_contains x s : String.prefix x s = true -> contains x s = true.
Proof. intros H. destruct s; cbn [contains]; now rewrite H. Qed.

(** [contains] decides [Occurs]. *)
Lemma contains_Occurs x s : contains x s = true <-> Occurs x s.
Proof.
  split.
  - induction s as [|c s IH]; cbn [contains]; intros H.
    + apply orb_true_iff in H as [H | H]; [| discriminate].
      apply prefix_drop in H. exists "", (drop (String.length x) "").
      exact H.
    + apply orb_true_iff in H as [H | H].
      * apply prefix_drop in H. rewrite H.
        apply Occurs_app_l, Occurs_refl.
      * now apply Occurs_cons, IH.
  - intros (pre & post & ->).
    induction pre as [|c pre IH].
    + change ("" +:+ x +:+ post) with (x +:+ post).
      apply prefix_contains, prefix_app.
    + change (String c pre +:+ x +:+ post)
        with (String c (pre +:+ x +:+ post)).
      cbn [contains]. rewrite IH. apply orb_true_r.
Qed.

Lemma Occurs_contains x s : Occurs x s -> contains x s = true.
Proof. apply contains_Occurs. Qed.

Lemma Occurs_join sep x l ls :
  In l ls -> Occurs x l -> Occurs x (join sep ls).
Proof.
  unfold join. induction ls as [|h ls IH]; intros Hin Hx; [destruct Hin |].
  destruct ls as [|h' ls].
  - destruct Hin as [-> | []]. exact Hx.
  - change (String.concat sep (h :: h' :: ls))
      with (h +:+ sep +:+ String.concat sep (h' :: ls)).
    destruct Hin as [-> | Hin].
    + now apply Occurs_app_l.
    + now apply Occurs_app_r, Occurs_app_r, IH.
Qed.

End StringFacts.

Create HintDb occurs.
#[export] Hint Resolve Occurs_refl Occurs_app_l Occurs_app_r : occurs.

(** ** Dictionaries and truthiness *)

Lemma dict_truthy_lookup (d : dict) k v :
  d !! k = Some v -> dict_truthy (Some d) = true.
Proof.
  intros H. unfold dict_truthy. apply bool_decide_eq_true.
  intros ->. rewrite lookup_empty in H. discriminate.
Qed.

Lemma has_caller_code_intro (d : dict) code :
  d !! "code" = Some code -> code <> "" -> has_caller_code (Some d) = true.
Proof.
  intros H Hne. unfold has_caller_code.
  rewrite (dict_truthy_lookup d _ _ H). cbn [dict_get]. rewrite H.
  destruct code; [congruence | reflexivity].
Qed.

Lemma has_caller_code_None : has_caller_code None = false.
Proof. reflexivity. Qed.

(** ** The empty-module heuristic *)

Section Heuristic.

Lemma forallb_filter_left {A} (f g : A -> bool) (l : list A) :
  forallb f (List.filter (fun a => f a && g a) l) = true.
Proof.
  apply forallb_forall. intros a Ha.
  apply filter_In in Ha as [_ Ha].
  now apply andb_true_iff in Ha as [Ha _].
Qed.

(** The test of lines 63-67 never succeeds: every line left by the filter
    contains the text that [all] then looks for. *)
Lemma direct_usage_never parts code : direct_usage parts code = false.
Proof.
  unfold direct_usage. rewrite forallb_filter_left. apply andb_false_r.
Qed.

(** What [check_if_empty_module_needed] computes. *)
Lemma check_if_empty_module_needed_eq fullname caller_info :
  check_if_empty_module_needed fullname caller_info =
  has_caller_code caller_info
  && (2 <? length (split "."%char fullname))
  && existsb
       (fun line =>
          contains ("from " +:+ part (split "."%char fullname) 0 +:+ "."
                    +:+ part (split "."%char fullname) 1) line
          && contains "import" line)
       (split LF (dict_get_default caller_info "code" "")).
Proof.
  unfold check_if_empty_module_needed, has_caller_code.
  rewrite <- negb_andb.
  destruct (dict_truthy caller_info
            && opt_truthy (dict_get caller_info "code")); [| reflexivity].
  cbn [negb andb].
  destruct (Nat.leb_spec (length (split "."%char fullname)) 2) as [Hle | Hlt].
  - destruct (Nat.ltb_spec 2 (length (split "."%char fullname))); [lia |].
    reflexivity.
  - destruct (Nat.ltb_spec 2 (length (split "."%char fullname))); [| lia].
    rewrite direct_usage_never. cbn [andb].
    generalize (split LF (dict_get_default caller_info "code" "")).
    intros l. induction l as [|h l IH]; [reflexivity |].
    cbn [List.filter existsb].
    destruct (contains _ h && contains "import" h); [reflexivity | exact IH].
Qed.

(** The three conditions that the code does test. *)
Lemma check_if_empty_module_needed_true fullname caller_info :
  check_if_empty_module_needed fullname caller_info = true ->
  has_caller_code caller_info = true /\
  2 < length (split "."%char fullname) /\
  exists line,
    In line (split LF (dict_get_default caller_info "code" "")) /\
    contains ("from " +:+ part (split "."%char fullname) 0 +:+ "."
              +:+ part (split "."%char fullname) 1) line = true /\
    contains "import" line = true.
Proof.
  rewrite check_if_empty_module_needed_eq.
  intros H. apply andb_true_iff in H as [H Hline].
  apply andb_true_iff in H as [Hcaller Hlen].
  split; [exact Hcaller |]. split; [now apply Nat.ltb_lt |].
  apply existsb_exists in Hline as (line & Hin & Hline).
  apply andb_true_iff in Hline as [? ?]. now exists line.
Qed.

Lemma check_if_empty_module_needed_None fullname :
  check_if_empty_module_needed fullname None = false.
Proof. reflexivity. Qed.

Lemma check_if_empty_module_needed_two_segments fullname caller_info :
  length (split "."%char fullname) = 2 ->
  check_if_empty_module_needed fullname caller_info = false.
Proof.
  intros H. rewrite check_if_empty_module_needed_eq, H.
  cbn. now rewrite andb_false_r.
Qed.

End Heuristic.

(** C1. The claim: [check_if_empty_module_needed] returns true only when
    no line of the caller source uses the module outside an import, and in
    particular returns false for ["lib.crypto.hash.md5"] when the caller
    holds both [from lib.crypto import hash] and [crypto.hash.md5(x)].
    The code returns true on that input: the guard of lines 63-67 meant to
    detect the direct usage can never fire ([direct_usage_never]). *)
Theorem check_if_empty_module_needed_direct_usage :
  check_if_empty_module_needed "lib.crypto.hash.md5"
    (caller_of "main.py" import_and_use) = true.
Proof. vm_compute. reflexivity. Qed.

(** C4. For ["lib.crypto.hash.md5"] and a caller whose source is the one
    line [from lib.crypto import hash], [check_if_empty_module_needed]
    returns true. *)
Theorem check_if_empty_module_needed_import_only (d : dict) :
  d !! "code" = Some import_only ->
  check_if_empty_module_needed "lib.crypto.hash.md5" (Some d) = true.
Proof.
  intros H. rewrite check_if_empty_module_needed_eq.
  rewrite (has_caller_code_intro d import_only H) by discriminate.
  unfold dict_get_default. cbn [dict_get]. rewrite H.
  vm_compute. reflexivity.
Qed.

Lemma check_if_empty_module_needed_import_only_witness :
  check_if_empty_module_needed "lib.crypto.hash.md5"
    (caller_of "main.py" import_only) = true.
Proof.
  apply check_if_empty_module_needed_import_only.
  vm_compute. reflexivity.
Defined.

(** ** The pipeline *)

Section Pipeline.

Variable rt : runtime.
Variables description fullname : string.
Variable existing_code : option string.
Variable caller_info : option dict.

Abbreviation prompt :=
  (constructed_prompt rt description fullname existing_code caller_info).

Lemma construct_prompt_eq :
  construct_prompt rt description fullname existing_code caller_info =
  (Return prompt,
   [CacheGetCachedPrompt (module_to_check_of fullname); CacheGetAllModules]
   ++ (if has_caller_code caller_info then
         [LogDebug ("Including caller context from " +:+
                    str_of_opt (dict_get caller_info "filename"))]
       else [])).
Proof.
  unfold construct_prompt, get_codebase_context.
  destruct (has_caller_code caller_info); reflexivity.
Qed.

(** Without a usable credential the [try] block raises before it calls
    the service. *)
Lemma request_code_no_key p :
  opt_truthy (environ rt !! "OPENAI_API_KEY") = false ->
  request_code rt p =
  raise (Exc ValueError "Please set the OPENAI_API_KEY environment variable.").
Proof. intros H. unfold request_code. now rewrite H. Qed.

(** With a credential it calls the service once, first of all. *)
Lemma request_code_key p :
  opt_truthy (environ rt !! "OPENAI_API_KEY") = true ->
  request_code rt p =
  (response <- call_service rt (request_for rt p) ;;
   content <- lift (first_content response) ;;
   valid <- lift (validate_code rt (extract_code content)) ;;
   if valid : bool then ret (Some (extract_code content))
   else emit (Print "Generated code is not valid.") ;;; ret None).
Proof. intros H. unfold request_code. now rewrite H. Qed.

Lemma generate_code_short :
  length (split "."%char fullname) < 2 ->
  generate_code rt description fullname existing_code caller_info = ret None.
Proof.
  intros H. unfold generate_code.
  destruct (Nat.ltb_spec (length (split "."%char fullname)) 2); [reflexivity | lia].
Qed.

Lemma generate_code_long :
  2 <= length (split "."%char fullname) ->
  generate_code rt description fullname existing_code caller_info =
  (p <- construct_prompt rt description fullname existing_code caller_info ;;
   try_except (request_code rt p) on_exception).
Proof.
  intros H. unfold generate_code.
  destruct (Nat.ltb_spec (length (split "."%char fullname)) 2); [lia | reflexivity].
Qed.

End Pipeline.

Arguments constructed_prompt : simpl never.
Arguments request_for : simpl never.
Arguments extract_code : simpl never.
Arguments validate_code : simpl never.
Arguments first_content : simpl never.
Arguments module_to_check_of : simpl never.

Section GenerateCode.

Variable rt : runtime.
Variables description fullname : string.
Variable existing_code : option string.
Variable caller_info : option dict.

Abbreviation run := (generate_code rt description fullname existing_code caller_info).
Abbreviation the_prompt :=
  (constructed_prompt rt description fullname existing_code caller_info).

(** The [try] block together with its [except] clause never raises. *)
Lemma guarded_request_cases p :
  let m := try_except (request_code rt p) on_exception in
  (opt_truthy (environ rt !! "OPENAI_API_KEY") = false /\
   io_result m = Return None /\ service_calls (io_trace m) = [] /\
   store_events (io_trace m) = [])
  \/
  (opt_truthy (environ rt !! "OPENAI_API_KEY") = true /\
   service_calls (io_trace m) = [ServiceCall (request_for rt p)] /\
   store_events (io_trace m) = [] /\
   ((exists resp content,
       chat_completions_create rt (request_for rt p) = Return resp /\
       first_content resp = Return content /\
       validate_code rt (extract_code content) = Return true /\
       io_result m = Return (Some (extract_code content)))
    \/
    (io_result m = Return None /\
     forall resp content,
       chat_completions_create rt (request_for rt p) = Return resp ->
       first_content resp = Return content ->
       validate_code rt (extract_code content) <> Return true))).
Proof.
  intros m. subst m.
  destruct (opt_truthy (environ rt !! "OPENAI_API_KEY")) eqn:Hkey.
  - right. rewrite (request_code_key rt p Hkey).
    split; [reflexivity |].
    unfold call_service, try_except, bind, lift, emit, ret, on_exception,
      io_result, io_trace.
    cbn [fst snd].
    destruct (chat_completions_create rt (request_for rt p)) as [resp | e]
      eqn:Hresp; cbn [fst snd app].
    2: { repeat split; try reflexivity. right. split; [reflexivity |].
         intros ? ? [=]. }
    destruct (first_content resp) as [content | e] eqn:Hcontent;
      cbn [fst snd app].
    2: { repeat split; try reflexivity. right. split; [reflexivity |].
         intros ? ? [= <-]. rewrite Hcontent. intros [=]. }
    destruct (validate_code rt (extract_code content)) as [[|] | e]
      eqn:Hvalid; cbn [fst snd app].
    + repeat split; try reflexivity. left. now exists resp, content.
    + repeat split; try reflexivity. right. split; [reflexivity |].
      intros ? ? [= <-]. rewrite Hcontent. intros [= <-]. now rewrite Hvalid.
    + repeat split; try reflexivity. right. split; [reflexivity |].
      intros ? ? [= <-]. rewrite Hcontent. intros [= <-]. now rewrite Hvalid.
  - left. rewrite (request_code_no_key rt p Hkey).
    repeat split; reflexivity.
Qed.

End GenerateCode.

(** ** What the templates embed *)

Lemma Occurs_join_Exists sep x ls :
  Exists (Occurs x) ls -> Occurs x (join sep ls).
Proof.
  intros H. apply List.Exists_exists in H as (l & Hin & Hx).
  now apply Occurs_join with l.
Qed.

(** Finds the line of a template in which the text is interpolated. *)
Ltac occurs_in_lines :=
  apply Occurs_join_Exists;
  repeat first
    [ apply Exists_cons_hd; solve [auto 8 with occurs]
    | apply Exists_cons_tl ].

Section TemplateFacts.

Variable rt : runtime.
Variables (module_name function_name : string).
Variables (current_description description existing_code : string).
Variables (codebase_context caller_context empty_module_context : string).

Abbreviation extend :=
  (prompt_extend rt module_name function_name current_description description
     existing_code codebase_context caller_context empty_module_context).
Abbreviation new_module :=
  (prompt_new_module rt module_name function_name description
     codebase_context caller_context empty_module_context).
Abbreviation new_package :=
  (prompt_new_package module_name description
     codebase_context caller_context empty_module_context).

Lemma prompt_extend_purpose : Occurs current_description extend.
Proof. unfold prompt_extend. occurs_in_lines. Qed.

Lemma prompt_extend_existing : Occurs existing_code extend.
Proof. unfold prompt_extend. occurs_in_lines. Qed.

Lemma prompt_extend_description : Occurs description extend.
Proof. unfold prompt_extend. occurs_in_lines. Qed.

Lemma prompt_extend_codebase : Occurs codebase_context extend.
Proof. unfold prompt_extend. occurs_in_lines. Qed.

Lemma prompt_extend_caller : Occurs caller_context extend.
Proof. unfold prompt_extend. occurs_in_lines. Qed.

Lemma prompt_extend_empty : Occurs empty_module_context extend.
Proof. unfold prompt_extend. occurs_in_lines. Qed.

Lemma prompt_new_module_description : Occurs description new_module.
Proof. unfold prompt_new_module. occurs_in_lines. Qed.

Lemma prompt_new_module_codebase : Occurs codebase_context new_module.
Proof. unfold prompt_new_module. occurs_in_lines. Qed.

Lemma prompt_new_module_caller : Occurs caller_context new_module.
Proof. unfold prompt_new_module. occurs_in_lines. Qed.

Lemma prompt_new_module_empty : Occurs empty_module_context new_module.
Proof. unfold prompt_new_module. occurs_in_lines. Qed.

Lemma prompt_new_package_description : Occurs description new_package.
Proof. unfold prompt_new_package. occurs_in_lines. Qed.

Lemma prompt_new_package_codebase : Occurs codebase_context new_package.
Proof. unfold prompt_new_package. occurs_in_lines. Qed.

Lemma prompt_new_package_caller : Occurs caller_context new_package.
Proof. unfold prompt_new_package. occurs_in_lines. Qed.

Lemma prompt_new_package_empty : Occurs empty_module_context new_package.
Proof. unfold prompt_new_package. occurs_in_lines. Qed.

End TemplateFacts.

Section CallerContextFacts.

Variables (caller_info : option dict) (relevant_parts : list string).
Variable code : string.

Lemma caller_context_snippets_code :
  Occurs code (caller_context_snippets caller_info relevant_parts code).
Proof. unfold caller_context_snippets. occurs_in_lines. Qed.

Lemma caller_context_snippets_relevant :
  Occurs (join nl relevant_parts)
    (caller_context_snippets caller_info relevant_parts code).
Proof. unfold caller_context_snippets. occurs_in_lines. Qed.

Lemma caller_context_full_code :
  Occurs code (caller_context_full caller_info code).
Proof. unfold caller_context_full. occurs_in_lines. Qed.

End CallerContextFacts.

(** ** The codebase context *)

Section CodebaseContext.

Lemma fold_add_module_keeps x modules : forall context,
  Occurs x context -> Occurs x (fold_left add_module modules context).
Proof.
  induction modules as [|item modules IH]; intros context H; [exact H |].
  cbn [fold_left]. apply IH. unfold add_module.
  destruct (snd item !! "code"); [now apply Occurs_app_l | exact H].
Qed.

Lemma fold_add_module_block name (data : dict) code modules : forall context,
  In (name, data) modules -> data !! "code" = Some code ->
  Occurs (module_block name code) (fold_left add_module modules context).
Proof.
  induction modules as [|item modules IH]; intros context Hin Hcode;
    [destruct Hin |].
  cbn [fold_left]. destruct Hin as [-> | Hin].
  - apply fold_add_module_keeps. unfold add_module. cbn [fst snd].
    rewrite Hcode. apply Occurs_app_r, Occurs_refl.
  - now apply IH.
Qed.

Lemma module_block_name name code : Occurs name (module_block name code).
Proof. unfold module_block. auto 8 with occurs. Qed.

Lemma module_block_code name code : Occurs code (module_block name code).
Proof. unfold module_block. auto 8 with occurs. Qed.

Lemma get_codebase_context_eq rt :
  get_codebase_context rt =
  (Return (codebase_context_of (get_all_modules rt)), [CacheGetAllModules]).
Proof. reflexivity. Qed.

End CodebaseContext.

(** C9. [get_codebase_context] returns the empty string when the module
    mapping is empty; otherwise, for every module of the mapping that
    carries a [code] field, the module's name and code occur verbatim in
    the returned text (inside the block written for that module). *)
Theorem get_codebase_context_spec (rt : runtime) :
  exists context,
    io_result (get_codebase_context rt) = Return context /\
    (get_all_modules rt = [] -> context = "") /\
    (forall name (data : dict) code,
       In (name, data) (get_all_modules rt) ->
       data !! "code" = Some code ->
       contains name context = true /\ contains code context = true /\
       contains (module_block name code) context = true).
Proof.
  exists (codebase_context_of (get_all_modules rt)).
  split; [reflexivity |]. split.
  - intros ->. reflexivity.
  - intros name data code Hin Hcode.
    assert (Occurs (module_block name code)
              (codebase_context_of (get_all_modules rt))) as Hblock.
    { unfold codebase_context_of.
      destruct (get_all_modules rt) as [|item modules] eqn:E; [destruct Hin |].
      now apply fold_add_module_block with data. }
    repeat split; apply Occurs_contains.
    + eapply Occurs_trans; [apply module_block_name | exact Hblock].
    + eapply Occurs_trans; [apply module_block_code | exact Hblock].
    + exact Hblock.
Qed.

Lemma get_codebase_context_spec_witness :
  io_result
    (get_codebase_context (sample_runtime None None sample_modules ""))
  = Return
      ("Here is the existing codebase for reference:" +:+ nl +:+ nl +:+
       "# Module: lib.text" +:+ nl +:+ "```python" +:+ nl +:+
       "def slugify(title): return title.lower()" +:+ nl +:+
       "```" +:+ nl +:+ nl) /\
  contains "lib.text"
    (codebase_context_of sample_modules) = true.
Proof.
  split; [vm_compute; reflexivity |].
  destruct (get_codebase_context_spec
              (sample_runtime None None sample_modules ""))
    as (context & Hcontext & _ & Hmodules).
  injection Hcontext as <-.
  refine (proj1 (Hmodules "lib.text" _ _ (or_introl eq_refl) _)).
  vm_compute. reflexivity.
Defined.

(** ** The constructed prompt *)

Section PromptFacts.

Variable rt : runtime.
Variables description fullname : string.
Variable existing_code : option string.
Variable caller_info : option dict.
Variable cached_prompt : option string.
Variable codebase_context : string.

Abbreviation the_prompt :=
  (prompt_of rt description fullname existing_code caller_info
     cached_prompt codebase_context).
Abbreviation chosen :=
  (select_template (function_name_of (split "."%char fullname)) existing_code).

Lemma prompt_of_description : Occurs description the_prompt.
Proof.
  unfold prompt_of. destruct chosen.
  - apply prompt_extend_description.
  - apply prompt_new_module_description.
  - apply prompt_new_package_description.
Qed.

Lemma prompt_of_codebase : Occurs codebase_context the_prompt.
Proof.
  unfold prompt_of. destruct chosen.
  - apply prompt_extend_codebase.
  - apply prompt_new_module_codebase.
  - apply prompt_new_package_codebase.
Qed.

Lemma prompt_of_caller :
  Occurs (caller_context_of fullname caller_info) the_prompt.
Proof.
  unfold prompt_of. destruct chosen.
  - apply prompt_extend_caller.
  - apply prompt_new_module_caller.
  - apply prompt_new_package_caller.
Qed.

Lemma prompt_of_empty :
  Occurs (empty_module_context_of fullname
            (check_if_empty_module_needed fullname caller_info))
    the_prompt.
Proof.
  unfold prompt_of. destruct chosen.
  - apply prompt_extend_empty.
  - apply prompt_new_module_empty.
  - apply prompt_new_package_empty.
Qed.

Lemma prompt_of_purpose :
  chosen = Extend -> Occurs (py_or cached_prompt description) the_prompt.
Proof.
  intros H. unfold prompt_of. rewrite H. apply prompt_extend_purpose.
Qed.

Lemma caller_context_of_code :
  has_caller_code caller_info = true ->
  Occurs (dict_get_default caller_info "code" "")
    (caller_context_of fullname caller_info).
Proof.
  intros H. unfold caller_context_of. rewrite H.
  destruct (relevant_parts_of fullname _).
  - apply caller_context_full_code.
  - apply caller_context_snippets_code.
Qed.

Lemma prompt_of_caller_code :
  has_caller_code caller_info = true ->
  Occurs (dict_get_default caller_info "code" "") the_prompt.
Proof.
  intros H. eapply Occurs_trans;
    [now apply caller_context_of_code | apply prompt_of_caller].
Qed.

(** Whatever the heuristic answered, each template allows a minimal
    implementation in its list of requirements. *)
Lemma prompt_of_structural_requirement :
  Occurs structural_requirement the_prompt.
Proof.
  unfold prompt_of.
  destruct chosen;
    [unfold prompt_extend | unfold prompt_new_module
    | unfold prompt_new_package];
    apply Occurs_join_Exists;
    repeat lazymatch goal with
           | |- Exists _ ((_ +:+ _) :: _) => apply Exists_cons_tl
           | |- Exists _ (_ :: _) =>
               first
                 [ apply Exists_cons_hd;
                   solve [apply contains_Occurs; vm_compute; reflexivity]
                 | apply Exists_cons_tl ]
           end.
Qed.

End PromptFacts.

Lemma join_cons_nonempty sep l l' ls : sep <> "" -> join sep (l :: l' :: ls) <> "".
Proof.
  intros Hsep. unfold join.
  change (String.concat sep (l :: l' :: ls))
    with (l +:+ sep +:+ String.concat sep (l' :: ls)).
  destruct l; [| discriminate]. destruct sep; [congruence | discriminate].
Qed.

Lemma empty_module_instruction_nonempty fullname :
  empty_module_instruction fullname <> "".
Proof. unfold empty_module_instruction. now apply join_cons_nonempty. Qed.

Lemma caller_context_of_nonempty fullname caller_info :
  has_caller_code caller_info = true ->
  caller_context_of fullname caller_info <> "".
Proof.
  intros H. unfold caller_context_of. rewrite H.
  destruct (relevant_parts_of fullname _);
    [unfold caller_context_full | unfold caller_context_snippets];
    now apply join_cons_nonempty.
Qed.

(** ** Absence of a text from a template *)

Section Absence.

Implicit Types mark a b u q s t : string.

(** A beginning of [u +:+ t] lies within [u] or runs over its end. *)
Lemma prefix_app_cases mark : forall u t,
  String.prefix mark (u +:+ t) = true ->
  String.prefix mark u = true \/
  exists q, q <> "" /\ mark = u +:+ q /\ String.prefix q t = true.
Proof.
  induction mark as [|c mark IH]; intros u t H.
  - left. apply prefix_nil.
  - destruct u as [|d u].
    + right. exists (String c mark). repeat split; [discriminate | exact H].
    + cbn [String.append] in H. rewrite prefix_cons in H |- *.
      destruct (ascii_dec c d) as [-> |]; [| discriminate].
      destruct (IH u t H) as [Hu | (q & Hq & -> & Hqt)]; [now left |].
      right. now exists q.
Qed.

Lemma contains_cons_false mark c s :
  contains mark (String c s) = false ->
  String.prefix mark (String c s) = false /\ contains mark s = false.
Proof. cbn [contains]. intros H. now apply orb_false_iff in H. Qed.

(** [mark] is in neither of two texts and cannot sit astride their
    junction: it is not in their concatenation. *)
Lemma contains_app_false mark b : forall a,
  contains mark a = false ->
  contains mark b = false ->
  (forall x u q,
     a = x +:+ u -> u <> "" -> q <> "" -> mark = u +:+ q ->
     String.prefix q b = true -> False) ->
  contains mark (a +:+ b) = false.
Proof.
  induction a as [|c a IH]; intros Ha Hb Hjunction; [exact Hb |].
  apply contains_cons_false in Ha as [Hhead Ha].
  cbn [String.append contains]. apply orb_false_iff. split.
  - destruct (String.prefix mark (String c (a +:+ b))) eqn:H; [| reflexivity].
    apply (prefix_app_cases mark (String c a) b) in H
      as [H | (q & Hq & Hmark & Hqb)]; [congruence |].
    exfalso. now apply (Hjunction "" (String c a) q).
  - apply IH; [exact Ha | exact Hb |].
    intros x u q -> Hu Hq Hmark Hqb.
    now apply (Hjunction (String c x) u q).
Qed.

Lemma mem_app_cons c u q : mem c (u +:+ String c q) = true.
Proof.
  induction u as [|d u IH]; cbn [String.append mem].
  - now rewrite Ascii.eqb_refl.
  - rewrite IH. apply orb_true_r.
Qed.

(** The second text begins with a character foreign to [mark]. *)
Lemma contains_app_outside mark a b :
  contains mark a = false ->
  contains mark b = false ->
  b = "" \/ starts_outside mark b = true ->
  contains mark (a +:+ b) = false.
Proof.
  intros Ha Hb Hstart. apply contains_app_false; [exact Ha | exact Hb |].
  intros x u q _ _ Hq -> Hqb.
  destruct Hstart as [-> | Hstart].
  - destruct q; [congruence | discriminate].
  - destruct b as [|c b]; [discriminate |].
    destruct q as [|d q]; [congruence |].
    rewrite prefix_cons in Hqb.
    destruct (ascii_dec d c) as [-> |]; [| discriminate].
    cbn [starts_outside] in Hstart. now rewrite mem_app_cons in Hstart.
Qed.

Lemma overlaps_false mark : forall s x u,
  overlaps mark s = false -> s = x +:+ u -> u <> "" ->
  String.prefix u mark = false.
Proof.
  induction s as [|c s IH]; intros x u H Hs Hu.
  - destruct x; [| discriminate]. cbn [String.append] in Hs. congruence.
  - cbn [overlaps] in H. apply orb_false_iff in H as [Hhead H].
    destruct x as [|d x].
    + cbn [String.append] in Hs. now subst u.
    + cbn [String.append] in Hs. injection Hs as _ Hs. now apply (IH x u).
Qed.

(** No end of the first text is a beginning of [mark]. *)
Lemma contains_app_no_overlap mark a b :
  contains mark a = false ->
  contains mark b = false ->
  overlaps mark a = false ->
  contains mark (a +:+ b) = false.
Proof.
  intros Ha Hb Hover. apply contains_app_false; [exact Ha | exact Hb |].
  intros x u q Hsplit Hu _ Hmark _.
  pose proof (overlaps_false mark a x u Hover Hsplit Hu) as H.
  rewrite Hmark, prefix_app in H. discriminate.
Qed.

Lemma render_start mark p ps :
  match p :: ps with
  | Lit s :: _ => starts_outside mark s = true
  | _ => False
  end ->
  starts_outside mark (render (p :: ps)) = true.
Proof.
  destruct p as [s | v]; [| contradiction].
  cbn [render piece_text]. destruct s; [discriminate |]. now cbn.
Qed.

(** A sequence whose fixed texts are safe and whose values do not hold
    [mark] renders to a text that does not hold it. *)
Lemma render_free mark ps :
  mark <> "" ->
  safe mark ps = true ->
  Forall (piece_free mark) ps ->
  contains mark (render ps) = false.
Proof.
  intros Hmark. induction ps as [|p ps IH]; intros Hsafe Hfree.
  - destruct mark; [congruence | reflexivity].
  - apply List.Forall_cons_iff in Hfree as [Hp Hfree].
    destruct p as [s | v]; cbn [safe] in Hsafe;
      repeat (apply andb_true_iff in Hsafe as [Hsafe ?]);
      cbn [render piece_text].
    + apply negb_true_iff in Hsafe.
      destruct ps as [|[s' | v'] ps]; [| discriminate |].
      * cbn [render]. now rewrite app_nil_r.
      * apply contains_app_no_overlap; [exact Hsafe | now apply IH |].
        now apply negb_true_iff.
    + apply contains_app_outside; [exact Hp | now apply IH |].
      destruct ps as [|[s' | v'] ps]; [now left | | discriminate].
      right. now apply render_start.
Qed.

(** A text without line break is in a joined text only if it is in one
    of the joined lines. *)
Lemma join_lines_free mark ls :
  mark <> "" -> mem LF mark = false ->
  Forall (fun l => contains mark l = false) ls ->
  contains mark (join nl ls) = false.
Proof.
  intros Hmark Hnl. unfold join.
  induction ls as [|l ls IH]; intros H.
  - destruct mark; [congruence | reflexivity].
  - apply List.Forall_cons_iff in H as [Hl H].
    destruct ls as [|l' ls]; [exact Hl |].
    change (String.concat nl (l :: l' :: ls))
      with (l +:+ String LF (String.concat nl (l' :: ls))).
    apply contains_app_outside; [exact Hl | |].
    + cbn [contains]. apply orb_false_iff. split; [| now apply IH].
      destruct mark as [|c mark]; [congruence |].
      rewrite prefix_cons. destruct (ascii_dec c LF) as [-> |]; [| easy].
      cbn [mem] in Hnl. now rewrite Ascii.eqb_refl in Hnl.
    + right. cbn [starts_outside]. now rewrite Hnl.
Qed.

(** What is in a part of a text is in the text. *)
Lemma contains_false_Occurs mark s t :
  contains mark t = false -> Occurs s t -> contains mark s = false.
Proof.
  intros Ht Hs. destruct (contains mark s) eqn:H; [| reflexivity].
  apply contains_Occurs in H.
  pose proof (Occurs_contains _ _ (Occurs_trans _ _ _ H Hs)). congruence.
Qed.

End Absence.

(** Reads a joined template as a sequence of fixed texts and values: the
    characters written out are fixed, what is appended to them as a whole
    is a value. *)
Ltac pieces_of t :=
  lazymatch t with
  | String ?c ?t' =>
      let r := pieces_of t' in
      lazymatch r with
      | Lit ?s :: ?ps => constr:(Lit (String c s) :: ps)
      | _ => constr:(Lit (String c EmptyString) :: r)
      end
  | EmptyString => constr:(@nil piece)
  | ?v +:+ ?t' => let r := pieces_of t' in constr:(Var v :: r)
  | ?v => constr:([Var v])
  end.

(** Proves that a template does not hold a text, from the same fact on the
    values it interpolates: the lines are joined, the template is read as a
    sequence and the fixed texts of the sequence are checked. *)
Ltac absent_from_template :=
  unfold join, nl; cbn [String.concat String.append];
  repeat (progress (rewrite ?app_assoc; cbn [String.append]));
  lazymatch goal with
  | |- contains ?mark ?t = false =>
      let ps := pieces_of t in
      change (contains mark (render ps) = false);
      apply render_free;
      [ discriminate
      | vm_compute; reflexivity
      | repeat (apply List.Forall_cons; [first [exact I | assumption] |]);
        apply List.Forall_nil ]
  end.

(** A template whose interpolated values do not hold the opening words
    of the instruction does not hold them. *)
Section TemplateAbsence.

Variable rt : runtime.
Variables (module_name function_name : string).
Variables (current_description description existing_code : string).
Variables (codebase_context caller_context empty_module_context : string).

Hypothesis Hmodule : contains instruction_opening module_name = false.
Hypothesis Hfunction : contains instruction_opening function_name = false.
Hypothesis Hcurrent : contains instruction_opening current_description = false.
Hypothesis Hdescription : contains instruction_opening description = false.
Hypothesis Hexisting : contains instruction_opening existing_code = false.
Hypothesis Hcodebase : contains instruction_opening codebase_context = false.
Hypothesis Hcaller : contains instruction_opening caller_context = false.
Hypothesis Hempty : contains instruction_opening empty_module_context = false.

Lemma prompt_new_package_free :
  contains instruction_opening
    (prompt_new_package module_name description codebase_context
       caller_context empty_module_context) = false.
Proof.
  unfold prompt_new_package. absent_from_template.
Qed.

Lemma symbol_kind_cases :
  symbol_kind rt function_name = "function" \/
  symbol_kind rt function_name = "class".
Proof. unfold symbol_kind. destruct (initial_isupper _ _); auto. Qed.

Lemma prompt_new_module_free :
  contains instruction_opening
    (prompt_new_module rt module_name function_name description
       codebase_context caller_context empty_module_context) = false.
Proof.
  unfold prompt_new_module.
  destruct symbol_kind_cases as [-> | ->]; absent_from_template.
Qed.

Lemma prompt_extend_free :
  contains instruction_opening
    (prompt_extend rt module_name function_name current_description
       description existing_code codebase_context caller_context
       empty_module_context) = false.
Proof.
  unfold prompt_extend.
  destruct symbol_kind_cases as [-> | ->]; absent_from_template.
Qed.

End TemplateAbsence.

(** The caller context and the codebase context do not hold the opening
    words when the texts they are built from do not. *)
Section ContextAbsence.

Abbreviation mark := instruction_opening.

Lemma mark_nonempty : mark <> "".
Proof. discriminate. Qed.

Lemma mark_one_line : mem LF mark = false.
Proof. reflexivity. Qed.

Lemma caller_context_full_free caller_info code :
  contains mark (dict_get_default caller_info "filename" "unknown") = false ->
  contains mark code = false ->
  contains mark (caller_context_full caller_info code) = false.
Proof.
  intros Hfile Hcode. unfold caller_context_full.
  set (filename := dict_get_default caller_info "filename" "unknown") in *.
  clearbody filename.
  absent_from_template.
Qed.

Lemma caller_context_snippets_free caller_info relevant_parts code :
  contains mark (dict_get_default caller_info "filename" "unknown") = false ->
  Forall (fun line => contains mark line = false) relevant_parts ->
  contains mark code = false ->
  contains mark (caller_context_snippets caller_info relevant_parts code)
  = false.
Proof.
  intros Hfile Hlines Hcode. unfold caller_context_snippets.
  pose proof (join_lines_free mark relevant_parts mark_nonempty mark_one_line
                Hlines) as Hsnippets.
  set (filename := dict_get_default caller_info "filename" "unknown") in *.
  set (snippets := join nl relevant_parts) in *.
  clearbody filename snippets.
  absent_from_template.
Qed.

(** The first piece of a split text begins it, and every piece is a part
    of it. *)
Lemma split_first c s :
  exists w ws post, split c s = w :: ws /\ s = w +:+ post.
Proof.
  induction s as [|d s (w & ws & post & Hsplit & Hs)]; cbn [split].
  - now exists "", [], "".
  - destruct (Ascii.eqb d c).
    + now exists "", (split c s), (String d s).
    + rewrite Hsplit. exists (String d w), ws, post.
      split; [reflexivity |]. cbn [String.append]. now rewrite <- Hs.
Qed.

Lemma split_Occurs c : forall s w, In w (split c s) -> Occurs w s.
Proof.
  induction s as [|d s IH]; intros w Hin; cbn [split] in Hin.
  - destruct Hin as [<- | []]. apply Occurs_refl.
  - destruct (Ascii.eqb d c).
    + destruct Hin as [<- | Hin].
      * now exists "", (String d s).
      * now apply Occurs_cons, IH.
    + destruct (split_first c s) as (w0 & ws & post & Hsplit & Hs).
      rewrite Hsplit in Hin, IH. destruct Hin as [<- | Hin].
      * exists "", post. cbn [String.append]. now rewrite <- Hs.
      * now apply Occurs_cons, IH, or_intror.
Qed.

Lemma part_free fullname i :
  contains mark fullname = false ->
  contains mark (part (split "."%char fullname) i) = false.
Proof.
  intros H. unfold part.
  destruct (nth_in_or_default i (split "."%char fullname) "") as [Hin | ->].
  - eapply contains_false_Occurs; [exact H | eapply split_Occurs, Hin].
  - reflexivity.
Qed.

Lemma relevant_parts_of_free fullname code :
  contains mark code = false ->
  Forall (fun line => contains mark line = false)
    (relevant_parts_of fullname code).
Proof.
  intros H. apply List.Forall_forall. intros line Hin.
  eapply contains_false_Occurs; [exact H |].
  apply (split_Occurs LF). revert Hin. unfold relevant_parts_of.
  destruct (2 <=? _); [| intros []].
  intros Hin. apply in_app_or in Hin as [Hin | Hin].
  - now apply List.filter_In in Hin.
  - destruct (3 <=? _); [| destruct Hin]. now apply List.filter_In in Hin.
Qed.

Lemma caller_context_of_free fullname caller_info :
  contains mark (dict_get_default caller_info "code" "") = false ->
  contains mark (dict_get_default caller_info "filename" "unknown") = false ->
  contains mark (caller_context_of fullname caller_info) = false.
Proof.
  intros Hcode Hfile. unfold caller_context_of.
  destruct (has_caller_code caller_info);
    [| reflexivity].
  pose proof (relevant_parts_of_free fullname _ Hcode) as Hlines.
  destruct (relevant_parts_of fullname _).
  - now apply caller_context_full_free.
  - now apply caller_context_snippets_free.
Qed.

(** *** The codebase context *)

Lemma mem_app_l c u q : mem c u = true -> mem c (u +:+ q) = true.
Proof.
  induction u as [|d u IH]; cbn [String.append mem]; [discriminate |].
  destruct (Ascii.eqb d c); [reflexivity | exact IH].
Qed.

(** A non-empty end of a text has the last character of the text. *)
Lemma mem_last c u : forall x y,
  x +:+ u = y +:+ String c "" -> u <> "" -> mem c u = true.
Proof.
  induction x as [|d x IH]; intros y H Hu.
  - cbn [String.append] in H. subst u. apply mem_app_cons.
  - destruct y as [|e y]; cbn [String.append] in H.
    + injection H as _ H. destruct x; [| discriminate].
      cbn [String.append] in H. congruence.
    + injection H as _ H. now apply (IH y).
Qed.

(** The first text ends with a character foreign to [mark]. *)
Lemma contains_app_after_outside a b c y :
  contains mark a = false ->
  contains mark b = false ->
  a = y +:+ String c "" -> mem c mark = false ->
  contains mark (a +:+ b) = false.
Proof.
  intros Ha Hb Hlast Hc. apply contains_app_false; [exact Ha | exact Hb |].
  intros x u q Hsplit Hu _ Hmark _.
  rewrite Hsplit in Hlast. pose proof (mem_last c u x y Hlast Hu) as H.
  rewrite Hmark in Hc. now rewrite (mem_app_l c u q H) in Hc.
Qed.

Lemma module_block_free name code :
  contains mark name = false -> contains mark code = false ->
  contains mark (module_block name code) = false.
Proof.
  intros Hname Hcode. unfold module_block.
  absent_from_template.
Qed.

Lemma module_block_last name code :
  exists y, module_block name code = y +:+ String LF "".
Proof.
  unfold module_block, nl.
  exists ("# Module: " +:+ name +:+ String LF "" +:+ "```python"
          +:+ String LF "" +:+ code +:+ String LF "" +:+ "```"
          +:+ String LF "").
  now rewrite !app_assoc.
Qed.

Lemma fold_add_module_free modules : forall context y,
  forallb (module_free_of mark) modules = true ->
  contains mark context = false ->
  context = y +:+ String LF "" ->
  contains mark (fold_left add_module modules context) = false.
Proof.
  induction modules as [|item modules IH]; intros context y Hfree Hctx Hlast;
    [exact Hctx |].
  cbn [forallb] in Hfree. apply andb_true_iff in Hfree as [Hitem Hfree].
  cbn [fold_left]. unfold add_module. unfold module_free_of in Hitem.
  destruct (snd item !! "code") as [code |]; [| now apply (IH context y)].
  apply andb_true_iff in Hitem as [Hname Hcode].
  apply negb_true_iff in Hname, Hcode.
  destruct (module_block_last (fst item) code) as (z & Hz).
  apply (IH _ (context +:+ z)); [exact Hfree | |].
  - apply (contains_app_after_outside _ _ LF y);
      [exact Hctx | now apply module_block_free | exact Hlast
      | apply mark_one_line].
  - now rewrite Hz, app_assoc.
Qed.

Lemma codebase_context_of_free modules :
  forallb (module_free_of mark) modules = true ->
  contains mark (codebase_context_of modules) = false.
Proof.
  intros H. unfold codebase_context_of.
  destruct modules as [|item rest];
    [reflexivity |].
  apply (fold_add_module_free (item :: rest) _
           ("Here is the existing codebase for reference:" +:+ nl));
    [exact H | reflexivity | reflexivity].
Qed.

End ContextAbsence.

Lemma instruction_opening_in_instruction fullname :
  Occurs instruction_opening (empty_module_instruction fullname).
Proof.
  unfold empty_module_instruction. apply Occurs_join_Exists.
  apply Exists_cons_tl, Exists_cons_hd.
  exists "        ",
    (", this module '" +:+ fullname +:+ "' appears to be ").
  reflexivity.
Qed.

Lemma py_or_free mark cached description :
  contains mark (default "" cached) = false ->
  contains mark description = false ->
  contains mark (py_or cached description) = false.
Proof.
  intros Hcached Hdescription. unfold py_or.
  destruct cached as [s |]; [| exact Hdescription].
  now destruct (truthy s).
Qed.

Lemma function_name_free fullname :
  contains instruction_opening fullname = false ->
  contains instruction_opening
    (default "" (function_name_of (split "."%char fullname))) = false.
Proof.
  intros H. unfold function_name_of.
  destruct (2 <? _); [now apply part_free | reflexivity].
Qed.

(** A request whose own texts do not hold the opening words of the
    instruction, and for which the heuristic did not fire, gets a prompt
    without them. *)
Lemma constructed_prompt_free
    (rt : runtime) (description fullname : string)
    (existing_code : option string) (caller_info : option dict) :
  request_free_of instruction_opening rt description fullname existing_code
    caller_info = true ->
  check_if_empty_module_needed fullname caller_info = false ->
  contains instruction_opening
    (constructed_prompt rt description fullname existing_code caller_info)
  = false.
Proof.
  unfold request_free_of. intros Hfree Hquiet.
  repeat (apply andb_true_iff in Hfree as [Hfree ?]).
  repeat match goal with
         | H : negb _ = true |- _ => apply negb_true_iff in H
         end.
  unfold constructed_prompt, prompt_of. rewrite Hquiet.
  cbn [empty_module_context_of].
  destruct (select_template _ existing_code).
  - apply prompt_extend_free;
      auto using part_free, function_name_free, py_or_free,
        codebase_context_of_free, caller_context_of_free.
  - apply prompt_new_module_free;
      auto using part_free, function_name_free, py_or_free,
        codebase_context_of_free, caller_context_of_free.
  - apply prompt_new_package_free;
      auto using part_free, function_name_free, py_or_free,
        codebase_context_of_free, caller_context_of_free.
Qed.

(** C2, counterexample. A new module is requested ([lib.text.slugify], no
    existing code) while the store holds a description for [lib.text]: the
    prompt built from the second template carries the description passed
    by the caller, and the cached one is nowhere in it. *)
Lemma new_module_prompt_omits_cached_purpose :
  get_cached_prompt
    (sample_runtime (Some "k") (Some "String helpers for web pages") [] "")
    (module_to_check_of "lib.text.slugify")
  = Some "String helpers for web pages" /\
  ~ embeds_purpose
      (sample_runtime (Some "k") (Some "String helpers for web pages") [] "")
      "Turn a title into a slug" "lib.text.slugify" None None.
Proof.
  split; [reflexivity |].
  unfold embeds_purpose. vm_compute. discriminate.
Qed.

(** C2, amended. For every request the constructed prompt embeds the
    description passed by the caller, the codebase context and the caller
    context (a non-empty block when the caller's code is present).  Only
    the extend-existing-module template embeds the library purpose, which
    is the cached description when there is one and the description passed
    by the caller otherwise; under the other two templates the cached
    description plays no part in the prompt.  The instruction permitting
    a minimal module, which begins with [instruction_opening], is embedded
    when the heuristic fired; and for a request none of whose own texts
    holds those opening words, the prompt holds them, and the
    instruction, exactly when the heuristic fired. *)
Theorem constructed_prompt_embeds
    (rt : runtime) (description fullname : string)
    (existing_code : option string) (caller_info : option dict) :
  let prompt :=
    constructed_prompt rt description fullname existing_code caller_info in
  let fired := check_if_empty_module_needed fullname caller_info in
  let chosen :=
    select_template (function_name_of (split "."%char fullname))
      existing_code in
  (chosen = Extend ->
   embeds_purpose rt description fullname existing_code caller_info) /\
  (chosen <> Extend ->
   forall cached,
     prompt
     = prompt_of rt description fullname existing_code caller_info cached
         (codebase_context_of (get_all_modules rt))) /\
  contains description prompt = true /\
  contains (codebase_context_of (get_all_modules rt)) prompt = true /\
  contains (caller_context_of fullname caller_info) prompt = true /\
  (has_caller_code caller_info = true ->
   caller_context_of fullname caller_info <> "") /\
  contains instruction_opening (empty_module_instruction fullname) = true /\
  (fired = true ->
   contains (empty_module_instruction fullname) prompt = true) /\
  (request_free_of instruction_opening rt description fullname existing_code
     caller_info = true ->
   contains instruction_opening prompt = fired /\
   contains (empty_module_instruction fullname) prompt = fired).
Proof.
  intros prompt fired chosen.
  pose proof (instruction_opening_in_instruction fullname) as Hopening.
  assert (fired = true ->
          contains (empty_module_instruction fullname) prompt = true)
    as Hfired.
  { intros H. apply Occurs_contains.
    replace (empty_module_instruction fullname)
      with (empty_module_context_of fullname fired)
      by now rewrite H.
    apply prompt_of_empty. }
  assert (request_free_of instruction_opening rt description fullname
            existing_code caller_info = true ->
          contains instruction_opening prompt = fired /\
          contains (empty_module_instruction fullname) prompt = fired)
    as Hexactly.
  { intros Hfree. destruct fired eqn:E.
    - split; [| now apply Hfired].
      apply Occurs_contains.
      eapply Occurs_trans; [exact Hopening |].
      apply contains_Occurs. now apply Hfired.
    - pose proof (constructed_prompt_free rt description fullname
                    existing_code caller_info Hfree E) as Habsent.
      fold prompt in Habsent. split; [exact Habsent |].
      destruct (contains (empty_module_instruction fullname) prompt) eqn:Hin;
        [| reflexivity].
      apply contains_Occurs in Hin.
      pose proof (Occurs_contains _ _ (Occurs_trans _ _ _ Hopening Hin)).
      congruence. }
  clearbody fired. subst prompt chosen.
  unfold embeds_purpose, constructed_prompt in *.
  split; [intros H; now apply Occurs_contains, prompt_of_purpose |].
  split.
  { intros H cached. unfold prompt_of.
    destruct (select_template _ existing_code);
      [congruence | reflexivity ..]. }
  split; [apply Occurs_contains, prompt_of_description |].
  split; [apply Occurs_contains, prompt_of_codebase |].
  split; [apply Occurs_contains, prompt_of_caller |].
  split; [now apply caller_context_of_nonempty |].
  split; [now apply Occurs_contains |].
  split; [exact Hfired | exact Hexactly].
Qed.

Lemma constructed_prompt_embeds_witness :
  embeds_purpose
    (sample_runtime (Some "k") (Some "String helpers for web pages") [] "")
    "Turn a title into a slug" "lib.text.slugify"
    (Some "def strip_tags(s): return s") None /\
  contains instruction_opening
    (constructed_prompt
       (sample_runtime (Some "k") (Some "String helpers for web pages") [] "")
       "Turn a title into a slug" "lib.text.slugify"
       (Some "def strip_tags(s): return s") None)
  = false /\
  contains instruction_opening
    (constructed_prompt
       (sample_runtime (Some "k") None sample_modules "")
       "Hash functions" "lib.crypto.hash.md5" None
       (caller_of "main.py" import_only))
  = true.
Proof.
  destruct (constructed_prompt_embeds
              (sample_runtime (Some "k")
                 (Some "String helpers for web pages") [] "")
              "Turn a title into a slug" "lib.text.slugify"
              (Some "def strip_tags(s): return s") None)
    as (Hpurpose & _ & _ & _ & _ & _ & _ & _ & Hquiet).
  destruct (constructed_prompt_embeds
              (sample_runtime (Some "k") None sample_modules "")
              "Hash functions" "lib.crypto.hash.md5" None
              (caller_of "main.py" import_only))
    as (_ & _ & _ & _ & _ & _ & _ & _ & Hfired).
  split; [apply Hpurpose; reflexivity |]. split.
  - destruct Hquiet as [-> _]; vm_compute; reflexivity.
  - destruct Hfired as [-> _]; vm_compute; reflexivity.
Defined.

(** ** [generate_code] as a whole *)

Section GenerateCodeFacts.

Variable rt : runtime.
Variables description fullname : string.
Variable existing_code : option string.
Variable caller_info : option dict.

Abbreviation run :=
  (generate_code rt description fullname existing_code caller_info).
Abbreviation the_prompt :=
  (constructed_prompt rt description fullname existing_code caller_info).
Abbreviation guarded :=
  (try_except (request_code rt the_prompt) on_exception).

(** With two segments or more the function is the guarded request that
    follows the construction of the prompt; the construction reads the
    store twice and calls no service. *)
Lemma generate_code_long_parts :
  2 <= length (split "."%char fullname) ->
  io_result run = io_result guarded /\
  service_calls (io_trace run) = service_calls (io_trace guarded) /\
  store_events (io_trace run) =
    [CacheGetCachedPrompt (module_to_check_of fullname); CacheGetAllModules]
    ++ store_events (io_trace guarded).
Proof.
  intros H. rewrite (generate_code_long _ _ _ _ _ H).
  unfold bind. rewrite construct_prompt_eq. cbn [fst snd].
  unfold io_result, io_trace, service_calls, store_events. cbn [fst snd].
  rewrite !List.filter_app.
  destruct (has_caller_code caller_info); repeat split; reflexivity.
Qed.

Lemma generate_code_service_calls :
  service_calls (io_trace run) = [] \/
  (opt_truthy (environ rt !! "OPENAI_API_KEY") = true /\
   service_calls (io_trace run) = [ServiceCall (request_for rt the_prompt)]).
Proof.
  destruct (Nat.lt_ge_cases (length (split "."%char fullname)) 2) as [H | H].
  - left. now rewrite (generate_code_short _ _ _ _ _ H).
  - destruct (generate_code_long_parts H) as (_ & -> & _).
    destruct (guarded_request_cases rt the_prompt)
      as [(_ & _ & Hc & _) | (Hk & Hc & _)]; auto.
Qed.

Lemma in_service_calls req (t : list event) :
  In (ServiceCall req) t -> In (ServiceCall req) (service_calls t).
Proof. intros H. apply filter_In. now split. Qed.

End GenerateCodeFacts.

(** C8. For every dotted name with fewer than two segments,
    [generate_code] returns [None] and does nothing else: in particular
    the generation service is not called. *)
Theorem generate_code_too_few_segments
    (rt : runtime) (description fullname : string)
    (existing_code : option string) (caller_info : option dict) :
  length (split "."%char fullname) < 2 ->
  io_result (generate_code rt description fullname existing_code caller_info)
    = Return None /\
  io_trace (generate_code rt description fullname existing_code caller_info)
    = [].
Proof.
  intros H. rewrite (generate_code_short _ _ _ _ _ H). now split.
Qed.

Lemma generate_code_too_few_segments_witness :
  io_result
    (generate_code (sample_runtime (Some "k") None [] "x = 1")
       "A library" "lib" None None) = Return None /\
  io_trace
    (generate_code (sample_runtime (Some "k") None [] "x = 1")
       "A library" "lib" None None) = [].
Proof.
  apply generate_code_too_few_segments. vm_compute. lia.
Defined.

(** C7. When [OPENAI_API_KEY] is absent from the environment,
    [generate_code] returns [None] and its trace holds no call of the
    generation service: the credential is tested before the client is
    built. *)
Theorem generate_code_missing_credential
    (rt : runtime) (description fullname : string)
    (existing_code : option string) (caller_info : option dict) :
  environ rt !! "OPENAI_API_KEY" = None ->
  io_result (generate_code rt description fullname existing_code caller_info)
    = Return None /\
  forall req,
    ~ In (ServiceCall req)
        (io_trace
           (generate_code rt description fullname existing_code caller_info)).
Proof.
  intros Hkey.
  assert (opt_truthy (environ rt !! "OPENAI_API_KEY") = false) as Hfalse
    by now rewrite Hkey.
  split.
  - destruct (Nat.lt_ge_cases (length (split "."%char fullname)) 2) as [H | H].
    + now rewrite (generate_code_short _ _ _ _ _ H).
    + destruct (generate_code_long_parts rt description fullname
                  existing_code caller_info H) as (-> & _).
      now rewrite (request_code_no_key rt _ Hfalse).
  - intros req Hin. apply in_service_calls in Hin.
    destruct (generate_code_service_calls rt description fullname
                existing_code caller_info) as [Hc | (Hk & _)].
    + rewrite Hc in Hin. destruct Hin.
    + congruence.
Qed.

Lemma generate_code_missing_credential_witness :
  io_result
    (generate_code (sample_runtime None None [] "x = 1")
       "A library" "lib.text.slugify" None None) = Return None.
Proof.
  apply (generate_code_missing_credential
           (sample_runtime None None [] "x = 1")
           "A library" "lib.text.slugify" None None).
  reflexivity.
Defined.

(** C6. [generate_code] never raises and returns either [None] or a text
    on which [validate_code] answers true; when the first answer of the
    service, once its fences are removed, fails the validation, the result
    is [None]; and the module store is only ever read, by the two reads
    that precede the request, so no answer of the service reaches it. *)
Theorem generate_code_validated
    (rt : runtime) (description fullname : string)
    (existing_code : option string) (caller_info : option dict) :
  let run := generate_code rt description fullname existing_code caller_info in
  let prompt :=
    constructed_prompt rt description fullname existing_code caller_info in
  (exists r, io_result run = Return r /\
     forall code, r = Some code -> validate_code rt code = Return true) /\
  (forall resp content,
     chat_completions_create rt (request_for rt prompt) = Return resp ->
     first_content resp = Return content ->
     validate_code rt (extract_code content) = Return false ->
     io_result run = Return None) /\
  (store_events (io_trace run) = [] \/
   store_events (io_trace run) =
     [CacheGetCachedPrompt (module_to_check_of fullname); CacheGetAllModules]).
Proof.
  intros run prompt. subst run prompt.
  destruct (Nat.lt_ge_cases (length (split "."%char fullname)) 2) as [H | H].
  - rewrite (generate_code_short _ _ _ _ _ H).
    split; [exists None; split; [reflexivity | discriminate] |].
    split; [reflexivity | now left].
  - destruct (generate_code_long_parts rt description fullname
                existing_code caller_info H) as (-> & _ & ->).
    destruct (guarded_request_cases rt
                (constructed_prompt rt description fullname existing_code
                   caller_info))
      as [(_ & Hr & _ & Hs)
         | (_ & _ & Hs & [(resp & content & Hresp & Hcontent & Hvalid & Hr)
                         | (Hr & Hnot)])];
      rewrite Hr, Hs.
    + split; [exists None; split; [reflexivity | discriminate] |].
      split; [reflexivity | now right].
    + split; [exists (Some (extract_code content)); split;
                [reflexivity | now intros ? [= <-]] |].
      split; [| now right].
      intros resp' content' Hresp' Hcontent' Hinvalid.
      rewrite Hresp in Hresp'. injection Hresp' as <-.
      rewrite Hcontent in Hcontent'. injection Hcontent' as <-.
      congruence.
    + split; [exists None; split; [reflexivity | discriminate] |].
      split; [reflexivity | now right].
Qed.

Lemma generate_code_validated_witness :
  io_result
    (generate_code (sample_runtime (Some "k") None [] "print((1, 2)")
       "A library" "lib.text.slugify" None None) = Return None.
Proof.
  refine (proj1 (proj2
            (generate_code_validated
               (sample_runtime (Some "k") None [] "print((1, 2)")
               "A library" "lib.text.slugify" None None))
            (Response [Choice (Some "print((1, 2)")]) "print((1, 2)"
            _ _ _); vm_compute; reflexivity.
Defined.

(** C10. When the caller information carries a non-empty [code], that
    source occurs verbatim in the constructed prompt, whether or not the
    relevance filter found snippets, and so in the user message of every
    request that [generate_code] sends. *)
Theorem caller_source_in_prompt
    (rt : runtime) (description fullname : string)
    (existing_code : option string) (d : dict) (code : string) :
  d !! "code" = Some code -> code <> "" ->
  contains code
    (constructed_prompt rt description fullname existing_code (Some d)) = true
  /\
  forall req,
    In (ServiceCall req)
       (io_trace
          (generate_code rt description fullname existing_code (Some d))) ->
    contains code (req_user req) = true.
Proof.
  intros Hcode Hne.
  assert (contains code
            (constructed_prompt rt description fullname existing_code (Some d))
          = true) as Hp.
  { apply Occurs_contains.
    replace code with (dict_get_default (Some d) "code" "")
      by (unfold dict_get_default; cbn [dict_get]; now rewrite Hcode).
    apply prompt_of_caller_code.
    now apply has_caller_code_intro with code. }
  split; [exact Hp |].
  intros req Hin. apply in_service_calls in Hin.
  destruct (generate_code_service_calls rt description fullname
              existing_code (Some d)) as [Hc | (_ & Hc)];
    rewrite Hc in Hin.
  - destruct Hin.
  - destruct Hin as [[= <-] | []]. exact Hp.
Qed.

Lemma caller_source_in_prompt_witness :
  contains import_and_use
    (constructed_prompt (sample_runtime (Some "k") None [] "x = 1")
       "Hash functions" "lib.crypto.hash.md5" None
       (Some (<["filename" := "main.py"]> (<["code" := import_and_use]> ∅))))
  = true.
Proof.
  refine (proj1
            (caller_source_in_prompt
               (sample_runtime (Some "k") None [] "x = 1")
               "Hash functions" "lib.crypto.hash.md5" None
               (<["filename" := "main.py"]> (<["code" := import_and_use]> ∅))
               import_and_use _ _)).
  - vm_compute. reflexivity.
  - discriminate.
Defined.

(** ** [validate_code] *)

(** An exception of the parser that is not a [SyntaxError] is not caught
    by [validate_code]; inside [generate_code] it reaches the [except]
    clause of the request. *)
Lemma validate_code_propagates (rt : runtime) code e :
  ast_parse rt code = Raise e -> is_SyntaxError e = false ->
  validate_code rt code = Raise e.
Proof. intros H He. unfold validate_code. now rewrite H, He. Qed.

(** C5, counterexample.  [validate_code] does not return a boolean for
    every string: on a chain of 3000 attribute accesses (6001 characters of
    valid Python) a parser with a bounded stack raises [RecursionError],
    the clause [except SyntaxError] does not catch it, and [validate_code]
    raises it in turn. *)
Lemma validate_code_deep_nesting :
  N.of_nat (String.length (attribute_chain 3000)) = 6001%N /\
  validate_code (custom_runtime (bounded_parse 3000) failing_service)
    (attribute_chain 3000)
  = Raise (Exc RecursionError "maximum recursion depth exceeded") /\
  ~ exists b : bool,
      validate_code (custom_runtime (bounded_parse 3000) failing_service)
        (attribute_chain 3000)
      = Return b.
Proof.
  assert (validate_code (custom_runtime (bounded_parse 3000) failing_service)
            (attribute_chain 3000)
          = Raise (Exc RecursionError "maximum recursion depth exceeded"))
    as H by (vm_compute; reflexivity).
  split; [vm_compute; reflexivity |].
  split; [exact H |].
  intros [b Hb]. rewrite H in Hb. discriminate.
Qed.

(** C5, amended.  For every input string the outcome of [validate_code]
    is fixed by the outcome of [ast.parse]: it returns true exactly when
    the parser accepts the string, it returns false exactly when the
    parser raises [SyntaxError] or one of its subclasses, which it
    catches, and it raises exactly when the parser raises an exception of
    any other class, which is then the exception it raises. *)
Theorem validate_code_outcomes (rt : runtime) (code : string) :
  (validate_code rt code = Return true <->
   exists tree, ast_parse rt code = Return tree) /\
  (validate_code rt code = Return false <->
   exists e, ast_parse rt code = Raise e /\ is_SyntaxError e = true) /\
  (forall e,
     validate_code rt code = Raise e <->
     ast_parse rt code = Raise e /\ is_SyntaxError e = false).
Proof.
  unfold validate_code.
  destruct (ast_parse rt code) as [tree | e0] eqn:Hparse.
  - split; [| split].
    + split; [intros _; now exists tree | reflexivity].
    + split; [discriminate | intros (e & He & _); discriminate].
    + intros e. split; [discriminate | intros [He _]; discriminate].
  - destruct (is_SyntaxError e0) eqn:Hclass.
    + split; [| split].
      * split; [discriminate | intros [tree Htree]; discriminate].
      * split; [intros _; now exists e0 | reflexivity].
      * intros e. split; [discriminate |].
        intros [[= ->] He]. congruence.
    + split; [| split].
      * split; [discriminate | intros [tree Htree]; discriminate].
      * split; [discriminate |].
        intros (e & [= <-] & He). congruence.
      * intros e. split.
        -- intros [= <-]. now split.
        -- now intros [[= ->] _].
Qed.

Lemma validate_code_outcomes_witness :
  validate_code (sample_runtime None None [] "") "print((1, 2)"
  = Return false.
Proof.
  apply (proj2 (proj1 (proj2
           (validate_code_outcomes (sample_runtime None None [] "")
              "print((1, 2)")))).
  exists (Exc SyntaxError "invalid syntax"). split; reflexivity.
Defined.

(** ** The fences around the answer *)

Section Fences.

Lemma replace_first_prefix old new s :
  String.prefix old s = true ->
  replace_first old new s = new +:+ drop (String.length old) s.
Proof. intros H. destruct s; cbn [replace_first]; now rewrite H. Qed.

(** The second [replace] removes the closing fence when the text before
    it holds no fence: the leftmost occurrence then ends with the
    closing fence, and removing it leaves the text as it was. *)
Lemma replace_first_fence s :
  contains fence s = false -> replace_first fence "" (s +:+ fence) = s.
Proof.
  induction s as [|c s IH]; intros H; [reflexivity |].
  apply contains_cons_false in H as [Hhead Htail].
  change (String c s +:+ fence) with (String c (s +:+ fence)).
  cbn [replace_first].
  destruct (String.prefix fence (String c (s +:+ fence))) eqn:P.
  - unfold fence in *.
    destruct s as [|d [|e s]]; cbn [String.append] in P |- *;
      repeat (rewrite prefix_cons in Hhead || rewrite prefix_cons in P);
      repeat match type of P with
             | context [ascii_dec ?a ?b] =>
                 destruct (ascii_dec a b) as [<- |]; [| discriminate P]
             end;
      try reflexivity.
    repeat match type of Hhead with
           | context [ascii_dec ?a ?b] =>
               destruct (ascii_dec a b); [| congruence]
           end.
    rewrite prefix_nil in Hhead. discriminate Hhead.
  - now rewrite (IH Htail).
Qed.

End Fences.

(** C3, counterexample. The inner text holds a fence marker: the second
    [replace] removes that marker, the leftmost one, and the closing fence
    stays in the result. *)
Lemma extract_code_inner_fence :
  extract_code fenced_answer = "s = ''" +:+ nl +:+ fence /\
  strip fenced_inner = "s = '```'" /\
  ~ fence_stripped fenced_answer "python" fenced_inner.
Proof.
  split; [vm_compute; reflexivity |].
  split; [vm_compute; reflexivity |].
  intros H. specialize (H eq_refl). vm_compute in H. discriminate H.
Qed.

(** A language tag other than [python] is not removed with the fence. *)
Example extract_code_other_tag :
  extract_code (fence +:+ "py" +:+ nl +:+ "x = 1" +:+ nl +:+ fence)
  = "py" +:+ nl +:+ "x = 1".
Proof. vm_compute. reflexivity. Qed.

(** C3, amended. When the trimmed content is the opening fence with the
    tag [python], an inner text that holds no fence marker and the closing
    fence, the extracted code is the inner text, trimmed: one opening and
    one closing fence are removed and nothing else. *)
Theorem extract_code_python_fence (content inner : string) :
  strip content = python_fence +:+ inner +:+ fence ->
  contains fence inner = false ->
  extract_code content = strip inner.
Proof.
  intros Hcontent Hinner. unfold extract_code. rewrite Hcontent.
  unfold startswith.
  change "```python" with python_fence. change "```" with fence.
  rewrite prefix_app.
  rewrite (replace_first_prefix python_fence "" _ (prefix_app _ _)).
  rewrite drop_app. change ("" +:+ inner +:+ fence) with (inner +:+ fence).
  now rewrite replace_first_fence.
Qed.

Lemma extract_code_python_fence_witness :
  extract_code
    ("  " +:+ python_fence +:+ nl +:+ "x = 1" +:+ nl +:+ fence +:+ nl)
  = strip (nl +:+ "x = 1" +:+ nl).
Proof.
  apply extract_code_python_fence; vm_compute; reflexivity.
Defined.

(** X21. When the trimmed content is an opening fence without the tag
    [python], an inner text that holds no fence marker and the closing
    fence, the extracted code is the inner text, trimmed. *)
Lemma extract_code_plain_fence (content inner : string) :
  strip content = fence +:+ inner +:+ fence ->
  startswith python_fence (strip content) = false ->
  contains fence inner = false ->
  extract_code content = strip inner.
Proof.
  intros Hcontent Htag Hinner. unfold extract_code.
  change "```python" with python_fence. rewrite Htag, Hcontent.
  unfold startswith. change "```" with fence.
  rewrite prefix_app.
  rewrite (replace_first_prefix fence "" _ (prefix_app _ _)).
  rewrite drop_app. change ("" +:+ inner +:+ fence) with (inner +:+ fence).
  now rewrite replace_first_fence.
Qed.

(** * Further properties of the code *)

(** ** [split] and [join] *)

Section SplitFacts.

Variable c : ascii.

Abbreviation sep := (String c EmptyString).

Lemma split_nonempty s : split c s <> [].
Proof.
  destruct s as [|d s]; cbn [split]; [discriminate |].
  destruct (Ascii.eqb d c); [discriminate |].
  destruct (split c s); discriminate.
Qed.

Lemma join_cons2 (sp x y : string) l :
  join sp (x :: y :: l) = x +:+ sp +:+ join sp (y :: l).
Proof. reflexivity. Qed.

Lemma join_cons_char sp d w ws :
  join sp (String d w :: ws) = String d (join sp (w :: ws)).
Proof. destruct ws; reflexivity. Qed.

(** Joining the pieces with the separator gives the text back. *)
Lemma join_split s : join sep (split c s) = s.
Proof.
  induction s as [|d s IH]; [reflexivity |].
  cbn [split]. destruct (Ascii.eqb_spec d c) as [-> | Hne].
  - destruct (split c s) as [|w ws] eqn:E; [now apply split_nonempty in E |].
    rewrite join_cons2, IH. reflexivity.
  - destruct (split c s) as [|w ws] eqn:E; [now apply split_nonempty in E |].
    now rewrite join_cons_char, IH.
Qed.

(** Splitting distributes over a separator. *)
Lemma split_app_sep a b :
  split c (a +:+ String c b) = split c a ++ split c b.
Proof.
  induction a as [|d a IH].
  - cbn [String.append split]. now rewrite Ascii.eqb_refl.
  - change (String d a +:+ String c b) with (String d (a +:+ String c b)).
    cbn [split]. rewrite IH.
    destruct (Ascii.eqb d c); [reflexivity |].
    destruct (split c a) as [|w ws] eqn:E; [now apply split_nonempty in E |].
    reflexivity.
Qed.

(** No piece holds the separator. *)
Lemma split_pieces_free s :
  Forall (fun w => contains sep w = false) (split c s).
Proof.
  induction s as [|d s IH]; cbn [split].
  - constructor; [reflexivity | constructor].
  - destruct (Ascii.eqb_spec d c) as [-> | Hne].
    + constructor; [reflexivity | exact IH].
    + destruct (split c s) as [|w ws] eqn:E; [now apply split_nonempty in E |].
      inversion IH as [|? ? Hw Hws]; subst.
      constructor; [| exact Hws].
      cbn [contains]. rewrite Hw.
      change (String.prefix sep (String d w))
        with (if ascii_dec c d then String.prefix "" w else false).
      destruct (ascii_dec c d); [congruence | reflexivity].
Qed.

(** A text without the separator is one piece. *)
Lemma split_free s : contains sep s = false -> split c s = [s].
Proof.
  induction s as [|d s IH]; intros H; [reflexivity |].
  cbn [contains] in H. apply orb_false_iff in H as [Hhead Htail].
  change (String.prefix sep (String d s))
    with (if ascii_dec c d then String.prefix "" s else false) in Hhead.
  cbn [split]. destruct (Ascii.eqb_spec d c) as [-> | Hne].
  - destruct (ascii_dec c c); [| congruence].
    rewrite prefix_nil in Hhead. discriminate.
  - now rewrite (IH Htail).
Qed.

End SplitFacts.

(** X1. The store key of line 93, [".".join(fullname.split(".")[:2])], is
    the dotted name itself when it has at most two segments; otherwise it
    is the name cut before its second dot, so that the name is the key, a
    dot and the rest; and taking the key of a key changes nothing. *)
Theorem module_to_check_of_prefix (fullname : string) :
  (length (split "."%char fullname) <= 2 ->
   module_to_check_of fullname = fullname) /\
  (2 < length (split "."%char fullname) ->
   exists rest, fullname = module_to_check_of fullname +:+ "." +:+ rest) /\
  module_to_check_of (module_to_check_of fullname)
  = module_to_check_of fullname.
Proof.
  unfold module_to_check_of.
  pose proof (join_split "."%char fullname) as Hjoin.
  pose proof (split_pieces_free "."%char fullname) as Hfree.
  destruct (split "."%char fullname) as [|a [|b [|x rest]]] eqn:E.
  - now apply split_nonempty in E.
  - cbn [take length]. apply List.Forall_cons_iff in Hfree as [Ha _].
    split; [intros _; exact Hjoin |]. split; [intros H; cbn in H; lia |].
    change (join "." [a]) with a. now rewrite (split_free _ _ Ha).
  - cbn [take length]. apply List.Forall_cons_iff in Hfree as [Ha Hrest].
    apply List.Forall_cons_iff in Hrest as [Hb _].
    split; [intros _; exact Hjoin |]. split; [intros H; cbn in H; lia |].
    change (join "." [a; b]) with (a +:+ String "."%char b).
    now rewrite split_app_sep, (split_free _ _ Ha), (split_free _ _ Hb).
  - cbn [take length]. apply List.Forall_cons_iff in Hfree as [Ha Hrest].
    apply List.Forall_cons_iff in Hrest as [Hb _].
    split; [intros H; lia |]. split.
    + intros _. exists (join "." (x :: rest)).
      rewrite <- Hjoin at 1. rewrite !join_cons2.
      change (join "." [b]) with b. now rewrite !app_assoc.
    + change (join "." [a; b]) with (a +:+ String "."%char b).
      now rewrite split_app_sep, (split_free _ _ Ha), (split_free _ _ Hb).
Qed.

Lemma module_to_check_of_prefix_witness :
  exists rest,
    "lib.crypto.hash.md5"
    = module_to_check_of "lib.crypto.hash.md5" +:+ "." +:+ rest.
Proof.
  apply (module_to_check_of_prefix "lib.crypto.hash.md5").
  vm_compute. lia.
Defined.

(** ** The heuristic, the relevant lines and the caller context *)

Lemma heuristic_iff
    (fullname : string) (caller_info : option dict) :
  check_if_empty_module_needed fullname caller_info = true <->
  has_caller_code caller_info = true /\
  2 < length (split "."%char fullname) /\
  exists line,
    In line (split LF (dict_get_default caller_info "code" "")) /\
    contains ("from " +:+ part (split "."%char fullname) 0 +:+ "."
              +:+ part (split "."%char fullname) 1) line = true /\
    contains "import" line = true.
Proof.
  split; [apply check_if_empty_module_needed_true |].
  intros (Hcaller & Hlen & line & Hin & Hfrom & Himport).
  rewrite check_if_empty_module_needed_eq, Hcaller.
  apply Nat.ltb_lt in Hlen. rewrite Hlen. cbn [andb].
  apply existsb_exists. exists line. now rewrite Hfrom, Himport.
Qed.

(** X2. [check_if_empty_module_needed] answers true exactly when the
    caller's code is present and not empty, the dotted name has more than
    two segments, and some line of the code holds both the text
    [from <segment0>.<segment1>] and the text [import]; nothing else in
    the code, a direct use of the module included, changes the answer. *)
Theorem check_if_empty_module_needed_iff
    (fullname : string) (caller_info : option dict) :
  check_if_empty_module_needed fullname caller_info = true <->
  has_caller_code caller_info = true /\
  2 < length (split "."%char fullname) /\
  exists line,
    In line (split LF (dict_get_default caller_info "code" "")) /\
    contains ("from " +:+ part (split "."%char fullname) 0 +:+ "."
              +:+ part (split "."%char fullname) 1) line = true /\
    contains "import" line = true.
Proof. exact (heuristic_iff fullname caller_info). Qed.

Lemma append_nonempty s t : s <> "" -> s +:+ t <> "".
Proof. destruct s; [congruence | discriminate]. Qed.

Lemma has_caller_code_elim (d : dict) :
  has_caller_code (Some d) = true ->
  exists code, d !! "code" = Some code /\ code <> "".
Proof.
  unfold has_caller_code. cbn [dict_get]. intros H.
  apply andb_true_iff in H as [_ H].
  destruct (d !! "code") as [code|]; [| discriminate].
  exists code. split; [reflexivity |]. now destruct code.
Qed.

(** X3. Once the heuristic answers true for a caller, it keeps answering
    true whatever lines are added after the caller's code: no later line,
    such as a direct use of the module, turns the answer to false. *)
Theorem check_if_empty_module_needed_extend
    (fullname : string) (d : dict) (code more : string) :
  d !! "code" = Some code ->
  check_if_empty_module_needed fullname (Some d) = true ->
  check_if_empty_module_needed fullname
    (Some (<["code" := code +:+ nl +:+ more]> d)) = true.
Proof.
  intros Hcode H.
  apply heuristic_iff in H
    as (Hcaller & Hlen & line & Hin & Hfrom & Himport).
  apply has_caller_code_elim in Hcaller as (code' & Hcode' & Hne).
  rewrite Hcode in Hcode'. injection Hcode' as <-.
  apply heuristic_iff.
  split.
  { apply has_caller_code_intro with (code +:+ nl +:+ more).
    - apply lookup_insert_eq.
    - now apply append_nonempty. }
  split; [exact Hlen |].
  exists line. split; [| now split].
  unfold dict_get_default in *. cbn [dict_get] in *.
  rewrite lookup_insert_eq. rewrite Hcode in Hin.
  cbn [default from_option id] in *.
  change (code +:+ nl +:+ more) with (code +:+ String LF more).
  rewrite split_app_sep. apply in_or_app. now left.
Qed.

Lemma check_if_empty_module_needed_extend_witness :
  check_if_empty_module_needed "lib.crypto.hash.md5"
    (Some (<["code" := import_only +:+ nl +:+ "crypto.hash.md5(x)"]>
             (<["code" := import_only]> ∅))) = true.
Proof.
  apply check_if_empty_module_needed_extend; vm_compute; reflexivity.
Defined.

Lemma relevant_lines (fullname code : string) :
  (forall line,
     In line (relevant_parts_of fullname code) -> In line (split LF code)) /\
  (2 <= length (split "."%char fullname) ->
   forall line,
     In line (split LF code) ->
     contains ("from " +:+ part (split "."%char fullname) 0 +:+ "."
               +:+ part (split "."%char fullname) 1) line = true ->
     In line (relevant_parts_of fullname code)).
Proof.
  unfold relevant_parts_of. split.
  - intros line H.
    destruct (2 <=? length (split "."%char fullname)); [| destruct H].
    apply in_app_or in H as [H | H].
    + now apply filter_In in H.
    + destruct (3 <=? length (split "."%char fullname)); [| destruct H].
      now apply filter_In in H.
  - intros Hlen line Hin Hfrom.
    apply Nat.leb_le in Hlen. rewrite Hlen.
    apply in_or_app. left. apply filter_In. now split.
Qed.

(** X4. The relevant lines extracted from the caller's code (lines
    106-125) are all lines of that code, and, for a name of two segments
    or more, every line that holds [from <segment0>.<segment1>] is among
    them. *)
Theorem relevant_parts_of_lines (fullname code : string) :
  (forall line,
     In line (relevant_parts_of fullname code) -> In line (split LF code)) /\
  (2 <= length (split "."%char fullname) ->
   forall line,
     In line (split LF code) ->
     contains ("from " +:+ part (split "."%char fullname) 0 +:+ "."
               +:+ part (split "."%char fullname) 1) line = true ->
     In line (relevant_parts_of fullname code)).
Proof. exact (relevant_lines fullname code). Qed.

Lemma relevant_parts_of_lines_witness :
  In "from lib.crypto import hash"
    (relevant_parts_of "lib.crypto.hash.md5" import_and_use).
Proof.
  apply (relevant_parts_of_lines "lib.crypto.hash.md5" import_and_use).
  - vm_compute. lia.
  - vm_compute. auto.
  - vm_compute. reflexivity.
Defined.

(** X5. When the heuristic answers true, the relevance filter has found
    at least the import line, so the caller context is the block with the
    relevant snippets followed by the full source, never the fallback
    block. *)
Theorem heuristic_implies_snippets
    (fullname : string) (caller_info : option dict) :
  check_if_empty_module_needed fullname caller_info = true ->
  relevant_parts_of fullname (dict_get_default caller_info "code" "") <> []
  /\
  caller_context_of fullname caller_info
  = caller_context_snippets caller_info
      (relevant_parts_of fullname (dict_get_default caller_info "code" ""))
      (dict_get_default caller_info "code" "").
Proof.
  intros H.
  apply heuristic_iff in H
    as (Hcaller & Hlen & line & Hin & Hfrom & _).
  assert (In line (relevant_parts_of fullname
                     (dict_get_default caller_info "code" ""))) as Hrel.
  { apply relevant_lines; [lia | exact Hin | exact Hfrom]. }
  unfold caller_context_of. rewrite Hcaller.
  destruct (relevant_parts_of fullname _) as [|l ls]; [destruct Hrel |].
  split; [discriminate | reflexivity].
Qed.

Lemma heuristic_implies_snippets_witness :
  relevant_parts_of "lib.crypto.hash.md5"
    (dict_get_default (caller_of "main.py" import_only) "code" "") <> [].
Proof.
  apply (heuristic_implies_snippets "lib.crypto.hash.md5"
           (caller_of "main.py" import_only)).
  vm_compute. reflexivity.
Defined.

(** ** The request and the templates *)

Lemma check_if_empty_module_needed_no_code fullname caller_info :
  has_caller_code caller_info = false ->
  check_if_empty_module_needed fullname caller_info = false.
Proof.
  intros H. now rewrite check_if_empty_module_needed_eq, H.
Qed.

(** X6. Caller information without usable code (an empty dictionary, no
    [code] key, or an empty [code]) is treated exactly as no caller
    information at all: [generate_code] returns the same result with the
    same effects, in particular the same prompt. *)
Theorem generate_code_caller_without_code
    (rt : runtime) (description fullname : string)
    (existing_code : option string) (caller_info : option dict) :
  has_caller_code caller_info = false ->
  generate_code rt description fullname existing_code caller_info
  = generate_code rt description fullname existing_code None.
Proof.
  intros H. unfold generate_code, construct_prompt, prompt_of.
  rewrite (check_if_empty_module_needed_no_code _ _ H).
  rewrite check_if_empty_module_needed_None.
  unfold caller_context_of. rewrite H, has_caller_code_None.
  reflexivity.
Qed.

Lemma generate_code_caller_without_code_witness :
  generate_code (sample_runtime (Some "k") None [] "x = 1")
    "Hash functions" "lib.crypto.hash.md5" None
    (Some (<["filename" := "main.py"]> ∅))
  = generate_code (sample_runtime (Some "k") None [] "x = 1")
      "Hash functions" "lib.crypto.hash.md5" None None.
Proof.
  apply generate_code_caller_without_code. vm_compute. reflexivity.
Defined.

(** X7. The existing code reaches the prompt only through the first
    template: when it is absent or empty, or when the dotted name has no
    third segment (or an empty one), the prompt is the one built without
    existing code. *)
Theorem existing_code_ignored
    (rt : runtime) (description fullname : string)
    (existing_code : option string) (caller_info : option dict) :
  opt_truthy existing_code = false \/
  opt_truthy (function_name_of (split "."%char fullname)) = false ->
  constructed_prompt rt description fullname existing_code caller_info
  = constructed_prompt rt description fullname None caller_info.
Proof.
  intros H. unfold constructed_prompt, prompt_of, select_template.
  destruct (opt_truthy (function_name_of (split "."%char fullname)));
    destruct (opt_truthy existing_code); cbn [andb opt_truthy];
    try reflexivity.
  destruct H; discriminate.
Qed.

Lemma existing_code_ignored_witness :
  constructed_prompt (sample_runtime (Some "k") None [] "")
    "Hash functions" "lib.crypto" (Some "def md5(data): pass") None
  = constructed_prompt (sample_runtime (Some "k") None [] "")
      "Hash functions" "lib.crypto" None None.
Proof.
  apply existing_code_ignored. right. vm_compute. reflexivity.
Defined.

(** X8. Outside the first template the description cached for the module
    plays no part: two runs that differ only in what [get_cached_prompt]
    returned build the same prompt. *)
Theorem cached_description_unused
    (rt : runtime) (description fullname : string)
    (existing_code : option string)
    (caller_info : option dict) (cached cached' : option string)
    (codebase_context : string) :
  select_template (function_name_of (split "."%char fullname)) existing_code
    <> Extend ->
  prompt_of rt description fullname existing_code caller_info
    cached codebase_context
  = prompt_of rt description fullname existing_code caller_info
      cached' codebase_context.
Proof.
  intros H. unfold prompt_of.
  destruct (select_template _ existing_code); [congruence | reflexivity ..].
Qed.

Lemma cached_description_unused_witness :
  prompt_of (sample_runtime None None [] "")
    "Turn a title into a slug" "lib.text.slugify" None None
    (Some "String helpers for web pages") ""
  = prompt_of (sample_runtime None None [] "")
      "Turn a title into a slug" "lib.text.slugify" None None
      None "".
Proof.
  apply cached_description_unused. vm_compute. discriminate.
Defined.

Section TargetFacts.

Variable rt : runtime.
Variables (module_name function_name : string).
Variables (current_description description existing_code : string).
Variables (codebase_context caller_context empty_module_context : string).

Lemma prompt_extend_module :
  Occurs module_name
    (prompt_extend rt module_name function_name current_description
       description existing_code codebase_context caller_context
       empty_module_context).
Proof. unfold prompt_extend. occurs_in_lines. Qed.

Lemma prompt_new_module_module :
  Occurs module_name
    (prompt_new_module rt module_name function_name description
       codebase_context caller_context empty_module_context).
Proof. unfold prompt_new_module. occurs_in_lines. Qed.

Lemma prompt_new_package_module :
  Occurs module_name
    (prompt_new_package module_name description
       codebase_context caller_context empty_module_context).
Proof. unfold prompt_new_package. occurs_in_lines. Qed.

(** The words that ask for the symbol: its kind and its quoted name. *)
Lemma kind_and_name_in_line (before after : string) :
  Occurs (symbol_kind rt function_name +:+ " named '" +:+ function_name +:+ "'")
    (before +:+ symbol_kind rt function_name +:+ " named '" +:+ function_name
     +:+ "'" +:+ after).
Proof.
  exists before, after. now rewrite !app_assoc.
Qed.

Lemma prompt_extend_symbol :
  Occurs (symbol_kind rt function_name +:+ " named '" +:+ function_name +:+ "'")
    (prompt_extend rt module_name function_name current_description
       description existing_code codebase_context caller_context
       empty_module_context).
Proof.
  unfold prompt_extend. apply Occurs_join_Exists.
  do 17 apply Exists_cons_tl. apply Exists_cons_hd.
  apply (kind_and_name_in_line "        I need you to add a new "
           " that implements the following functionality:").
Qed.

Lemma prompt_new_module_symbol :
  Occurs (symbol_kind rt function_name +:+ " named '" +:+ function_name +:+ "'")
    (prompt_new_module rt module_name function_name description
       codebase_context caller_context empty_module_context).
Proof.
  unfold prompt_new_module. apply Occurs_join_Exists.
  apply Exists_cons_tl. apply Exists_cons_hd.
  apply Occurs_app_r, Occurs_app_r.
  apply (kind_and_name_in_line "' with a "
           " that implements the following functionality:").
Qed.

End TargetFacts.

(** X9. Every prompt names the module (the second segment of the dotted
    name).  When the name has a non-empty third segment with an ASCII
    first character, the prompt asks for a class of that name if the
    character is a capital letter and for a function of that name
    otherwise.  The first template echoes the existing code verbatim. *)
Theorem prompt_names_target
    (rt : runtime) (description fullname : string)
    (existing_code : option string) (caller_info : option dict) :
  let prompt :=
    constructed_prompt rt description fullname existing_code caller_info in
  contains (part (split "."%char fullname) 1) prompt = true /\
  (forall c rest,
     function_name_of (split "."%char fullname) = Some (String c rest) ->
     (N_of_ascii c < 128)%N ->
     contains
       ((if isupper c then "class" else "function")
        +:+ " named '" +:+ String c rest +:+ "'") prompt
     = true) /\
  (forall code,
     select_template (function_name_of (split "."%char fullname))
       existing_code = Extend ->
     existing_code = Some code ->
     contains code prompt = true).
Proof.
  intros prompt. subst prompt. unfold constructed_prompt, prompt_of.
  split; [| split].
  - apply Occurs_contains. destruct (select_template _ existing_code).
    + apply prompt_extend_module.
    + apply prompt_new_module_module.
    + apply prompt_new_package_module.
  - intros c rest Hname Hascii. apply Occurs_contains.
    unfold select_template. rewrite Hname.
    cbn [opt_truthy default from_option id truthy andb].
    replace (if isupper c then "class" else "function")
      with (symbol_kind rt (String c rest))
      by (unfold symbol_kind, initial_isupper;
          apply N.ltb_lt in Hascii; rewrite Hascii;
          now destruct (isupper c)).
    destruct (opt_truthy existing_code).
    + apply prompt_extend_symbol.
    + apply prompt_new_module_symbol.
  - intros code Hsel ->. apply Occurs_contains. rewrite Hsel.
    apply prompt_extend_existing.
Qed.

Lemma prompt_names_target_witness :
  contains "class named 'Digest'"
    (constructed_prompt (sample_runtime (Some "k") None [] "")
       "Hash functions" "lib.crypto.Digest" None None) = true.
Proof.
  refine (proj1 (proj2
            (prompt_names_target (sample_runtime (Some "k") None [] "")
               "Hash functions" "lib.crypto.Digest" None None))
            "D"%char "igest" eq_refl _).
  vm_compute. reflexivity.
Defined.

(** X24. When the third segment of the dotted name begins with a
    character beyond ASCII, the prompt asks for a class of that name if
    the Unicode database of the interpreter says that this character, the
    first code point of the name, is upper case, and for a function of
    that name otherwise. *)
Theorem prompt_names_target_beyond_ascii
    (rt : runtime) (description fullname : string)
    (existing_code : option string) (caller_info : option dict)
    (c : ascii) (rest : string) :
  function_name_of (split "."%char fullname) = Some (String c rest) ->
  (128 <= N_of_ascii c)%N ->
  contains
    ((if str_isupper rt (head_char (String c rest))
      then "class" else "function")
     +:+ " named '" +:+ String c rest +:+ "'")
    (constructed_prompt rt description fullname existing_code caller_info)
  = true.
Proof.
  intros Hname Hbeyond. apply Occurs_contains.
  unfold constructed_prompt, prompt_of, select_template. rewrite Hname.
  cbn [opt_truthy default from_option id truthy andb].
  replace (if str_isupper rt (head_char (String c rest))
           then "class" else "function")
    with (symbol_kind rt (String c rest)).
  - destruct (opt_truthy existing_code).
    + apply prompt_extend_symbol.
    + apply prompt_new_module_symbol.
  - unfold symbol_kind, initial_isupper.
    apply N.ltb_ge in Hbeyond. rewrite Hbeyond.
    now destruct (str_isupper rt _).
Qed.

Lemma prompt_names_target_beyond_ascii_witness :
  head_char "Élan" = "É" /\
  contains "class named 'Élan'"
    (constructed_prompt (sample_runtime (Some "k") None [] "")
       "Geometry" "lib.shapes.Élan" None None) = true.
Proof.
  split; [reflexivity |].
  refine (prompt_names_target_beyond_ascii
            (sample_runtime (Some "k") None [] "")
            "Geometry" "lib.shapes.Élan" None None
            "195"%char (String "137"%char "lan") _ _).
  - vm_compute. reflexivity.
  - vm_compute. discriminate.
Defined.

(** X10. The caller context names the caller's file; when the caller
    information has no [filename] the prompt says [unknown], while the
    debug message written for the same request says [None]. *)
Theorem caller_file_name
    (rt : runtime) (description fullname : string)
    (existing_code : option string) (d : dict) :
  has_caller_code (Some d) = true ->
  contains ("# File: " +:+ default "unknown" (d !! "filename"))
    (constructed_prompt rt description fullname existing_code (Some d))
  = true /\
  In (LogDebug ("Including caller context from "
                +:+ default "None" (d !! "filename")))
     (io_trace
        (construct_prompt rt description fullname existing_code (Some d))).
Proof.
  intros H. split.
  - apply Occurs_contains. unfold constructed_prompt.
    eapply Occurs_trans; [| apply prompt_of_caller].
    unfold caller_context_of. rewrite H.
    change (default "unknown" (d !! "filename"))
      with (dict_get_default (Some d) "filename" "unknown").
    destruct (relevant_parts_of fullname _);
      [unfold caller_context_full | unfold caller_context_snippets];
      apply Occurs_join_Exists;
      do 3 apply Exists_cons_tl; apply Exists_cons_hd;
      exists "            ", ""; now rewrite !app_nil_r.
  - rewrite construct_prompt_eq, H. unfold io_trace. cbn [snd].
    apply in_or_app. right. now left.
Qed.

Lemma caller_file_name_witness :
  contains "# File: unknown"
    (constructed_prompt (sample_runtime (Some "k") None [] "")
       "Hash functions" "lib.crypto.hash.md5" None
       (Some (<["code" := import_only]> ∅))) = true.
Proof.
  refine (proj1
            (caller_file_name (sample_runtime (Some "k") None [] "")
               "Hash functions" "lib.crypto.hash.md5" None
               (<["code" := import_only]> ∅) _)).
  vm_compute. reflexivity.
Defined.

(** ** The outcomes of the request *)

Section Outcomes.

Variable rt : runtime.
Variables description fullname : string.
Variable existing_code : option string.
Variable caller_info : option dict.

Abbreviation run :=
  (generate_code rt description fullname existing_code caller_info).
Abbreviation built :=
  (construct_prompt rt description fullname existing_code caller_info).
Abbreviation the_prompt :=
  (constructed_prompt rt description fullname existing_code caller_info).
Abbreviation the_request := (request_for rt the_prompt).
Abbreviation guarded :=
  (try_except (request_code rt the_prompt) on_exception).

(** With two segments or more, the run is the construction of the prompt
    followed by the guarded request. *)
Lemma generate_code_long_run :
  2 <= length (split "."%char fullname) ->
  run = (io_result guarded, io_trace built ++ io_trace guarded).
Proof.
  intros H. rewrite (generate_code_long _ _ _ _ _ H).
  unfold bind. rewrite construct_prompt_eq. reflexivity.
Qed.

Lemma guarded_no_key :
  opt_truthy (environ rt !! "OPENAI_API_KEY") = false ->
  guarded
  = (Return None,
     [Print ("Error generating code: "
             +:+ "Please set the OPENAI_API_KEY environment variable.")]).
Proof. intros H. now rewrite (request_code_no_key _ _ H). Qed.

Lemma guarded_key :
  opt_truthy (environ rt !! "OPENAI_API_KEY") = true ->
  guarded
  = match chat_completions_create rt the_request with
    | Raise e =>
        (Return None,
         [ServiceCall the_request;
          Print ("Error generating code: " +:+ exc_msg e)])
    | Return resp =>
        match first_content resp with
        | Raise e =>
            (Return None,
             [ServiceCall the_request;
              Print ("Error generating code: " +:+ exc_msg e)])
        | Return content =>
            match validate_code rt (extract_code content) with
            | Raise e =>
                (Return None,
                 [ServiceCall the_request;
                  Print ("Error generating code: " +:+ exc_msg e)])
            | Return true =>
                (Return (Some (extract_code content)),
                 [ServiceCall the_request])
            | Return false =>
                (Return None,
                 [ServiceCall the_request;
                  Print "Generated code is not valid."])
            end
        end
    end.
Proof.
  intros H. rewrite (request_code_key _ _ H).
  unfold call_service, try_except, bind, lift, emit, ret, on_exception.
  cbn [fst snd].
  destruct (chat_completions_create rt the_request) as [resp | e];
    cbn [fst snd app]; [| reflexivity].
  destruct (first_content resp) as [content | e];
    cbn [fst snd app]; [| reflexivity].
  destruct (validate_code rt (extract_code content)) as [[|] | e];
    reflexivity.
Qed.

End Outcomes.

(** X11. Every request that [generate_code] sends carries the credential
    of the environment, which is not empty, the endpoint override of the
    environment when there is one, the model named by [OPENAI_MODEL] or
    [gpt-4.1] when that variable is unset, the fixed system message and,
    as user message, the constructed prompt; and it is sent only for a
    dotted name of two segments or more. *)
Theorem request_fields
    (rt : runtime) (description fullname : string)
    (existing_code : option string) (caller_info : option dict)
    (req : request) :
  In (ServiceCall req)
     (io_trace
        (generate_code rt description fullname existing_code caller_info)) ->
  environ rt !! "OPENAI_API_KEY" = Some (req_api_key req) /\
  req_api_key req <> "" /\
  req_base_url req = environ rt !! "OPENAI_API_BASE_URL" /\
  req_model req = default "gpt-4.1" (environ rt !! "OPENAI_MODEL") /\
  req_system req = system_message /\
  req_user req
  = constructed_prompt rt description fullname existing_code caller_info /\
  2 <= length (split "."%char fullname).
Proof.
  intros Hin. apply in_service_calls in Hin.
  destruct (Nat.lt_ge_cases (length (split "."%char fullname)) 2) as [H | H].
  { rewrite (generate_code_short _ _ _ _ _ H) in Hin. destruct Hin. }
  destruct (generate_code_service_calls rt description fullname
              existing_code caller_info) as [Hc | (Hkey & Hc)];
    rewrite Hc in Hin; [destruct Hin |].
  destruct Hin as [[= <-] | []].
  unfold request_for. cbn [req_api_key req_base_url req_model req_system
                             req_user].
  destruct (environ rt !! "OPENAI_API_KEY") as [key|]; [| discriminate].
  cbn [default from_option id]. repeat split; try reflexivity; try exact H.
  intros ->. discriminate.
Qed.

Lemma request_fields_witness :
  req_model
    (request_for (sample_runtime (Some "k") None [] "x = 1")
       (constructed_prompt (sample_runtime (Some "k") None [] "x = 1")
          "A library" "lib.text" None None))
  = "gpt-4.1".
Proof.
  refine (proj1 (proj2 (proj2 (proj2
            (request_fields (sample_runtime (Some "k") None [] "x = 1")
               "A library" "lib.text" None None _ _))))).
  vm_compute. auto.
Defined.

(** X12. [generate_code] calls the generation service at most once, never
    a second time after a failure; it calls it exactly once when the
    dotted name has two segments or more and the credential is present
    and not empty, and not at all otherwise. *)
Theorem service_called_at_most_once
    (rt : runtime) (description fullname : string)
    (existing_code : option string) (caller_info : option dict) :
  let calls :=
    service_calls
      (io_trace
         (generate_code rt description fullname existing_code caller_info)) in
  length calls <= 1 /\
  (length calls = 1 <->
   2 <= length (split "."%char fullname) /\
   opt_truthy (environ rt !! "OPENAI_API_KEY") = true).
Proof.
  intros calls. subst calls.
  destruct (Nat.lt_ge_cases (length (split "."%char fullname)) 2) as [H | H].
  - rewrite (generate_code_short _ _ _ _ _ H). cbn.
    split; [lia |]. split; [discriminate | lia].
  - destruct (generate_code_long_parts rt description fullname
                existing_code caller_info H) as (_ & -> & _).
    destruct (guarded_request_cases rt
                (constructed_prompt rt description fullname existing_code
                   caller_info))
      as [(Hkey & _ & -> & _) | (Hkey & -> & _)]; cbn [length].
    + split; [lia |]. split; [discriminate | intros [_ ?]; congruence].
    + split; [lia |]. now split.
Qed.

(** X13. When the credential is missing or empty and the dotted name has
    two segments or more, [generate_code] still builds the prompt (reading
    the store twice), then prints that [OPENAI_API_KEY] must be set and
    returns [None]. *)
Theorem credential_missing_or_empty
    (rt : runtime) (description fullname : string)
    (existing_code : option string) (caller_info : option dict) :
  2 <= length (split "."%char fullname) ->
  environ rt !! "OPENAI_API_KEY" = None \/
  environ rt !! "OPENAI_API_KEY" = Some "" ->
  generate_code rt description fullname existing_code caller_info
  = (Return None,
     io_trace
       (construct_prompt rt description fullname existing_code caller_info)
     ++ [Print ("Error generating code: Please set the "
                +:+ "OPENAI_API_KEY environment variable.")]).
Proof.
  intros H Hkey. rewrite (generate_code_long_run _ _ _ _ _ H).
  rewrite guarded_no_key; [reflexivity |].
  destruct Hkey as [-> | ->]; reflexivity.
Qed.

Lemma credential_missing_or_empty_witness :
  io_result
    (generate_code (sample_runtime (Some "") None [] "x = 1")
       "A library" "lib.text" None None) = Return None.
Proof.
  rewrite (credential_missing_or_empty
             (sample_runtime (Some "") None [] "x = 1")
             "A library" "lib.text" None None).
  - reflexivity.
  - vm_compute. lia.
  - right. reflexivity.
Defined.

(** X14. When the call to the service raises an exception, after that one
    call [generate_code] prints the message of the exception and returns
    [None]; the failure does not reach the caller. *)
Theorem service_failure
    (rt : runtime) (description fullname : string)
    (existing_code : option string) (caller_info : option dict) (e : exc) :
  2 <= length (split "."%char fullname) ->
  opt_truthy (environ rt !! "OPENAI_API_KEY") = true ->
  chat_completions_create rt
    (request_for rt
       (constructed_prompt rt description fullname existing_code caller_info))
  = Raise e ->
  generate_code rt description fullname existing_code caller_info
  = (Return None,
     io_trace
       (construct_prompt rt description fullname existing_code caller_info)
     ++ [ServiceCall
           (request_for rt
              (constructed_prompt rt description fullname existing_code
                 caller_info));
         Print ("Error generating code: " +:+ exc_msg e)]).
Proof.
  intros H Hkey Hfail. rewrite (generate_code_long_run _ _ _ _ _ H).
  now rewrite (guarded_key _ _ _ _ _ Hkey), Hfail.
Qed.

Lemma service_failure_witness :
  io_result
    (generate_code (custom_runtime bracket_parse failing_service)
       "A library" "lib.text" None None) = Return None.
Proof.
  rewrite (service_failure (custom_runtime bracket_parse failing_service)
             "A library" "lib.text" None None
             (Exc OpenAIError "Connection error.")).
  - reflexivity.
  - vm_compute. lia.
  - reflexivity.
  - reflexivity.
Defined.

(** X15. A response without choices, or whose first choice has no
    content, is handled like a failure: the message of the [IndexError]
    or [AttributeError] is printed and [None] is returned. *)
Theorem response_without_content
    (rt : runtime) (description fullname : string)
    (existing_code : option string) (caller_info : option dict)
    (resp : response) :
  2 <= length (split "."%char fullname) ->
  opt_truthy (environ rt !! "OPENAI_API_KEY") = true ->
  chat_completions_create rt
    (request_for rt
       (constructed_prompt rt description fullname existing_code caller_info))
  = Return resp ->
  (choices resp = [] ->
   generate_code rt description fullname existing_code caller_info
   = (Return None,
      io_trace
        (construct_prompt rt description fullname existing_code caller_info)
      ++ [ServiceCall
            (request_for rt
               (constructed_prompt rt description fullname existing_code
                  caller_info));
          Print "Error generating code: list index out of range"])) /\
  (forall others,
     choices resp = Choice None :: others ->
     generate_code rt description fullname existing_code caller_info
     = (Return None,
        io_trace
          (construct_prompt rt description fullname existing_code caller_info)
        ++ [ServiceCall
              (request_for rt
                 (constructed_prompt rt description fullname existing_code
                    caller_info));
            Print ("Error generating code: "
                   +:+ "'NoneType' object has no attribute 'strip'")])).
Proof.
  intros H Hkey Hresp. rewrite (generate_code_long_run _ _ _ _ _ H).
  rewrite (guarded_key _ _ _ _ _ Hkey), Hresp.
  split.
  - intros Hchoices. unfold first_content. now rewrite Hchoices.
  - intros others Hchoices. unfold first_content. now rewrite Hchoices.
Qed.

Lemma response_without_content_witness :
  io_result
    (generate_code
       (custom_runtime bracket_parse (reply_service (Response [])))
       "A library" "lib.text" None None) = Return None.
Proof.
  rewrite (proj1
             (response_without_content
                (custom_runtime bracket_parse (reply_service (Response [])))
                "A library" "lib.text" None None (Response [])
                ltac:(vm_compute; lia) eq_refl eq_refl) eq_refl).
  reflexivity.
Defined.

(** X16. When the service answers and the answer, once its fences are
    removed, is accepted by the parser, [generate_code] returns exactly
    that text and prints nothing. *)
Theorem valid_answer_returned
    (rt : runtime) (description fullname : string)
    (existing_code : option string) (caller_info : option dict)
    (resp : response) (content : string) :
  2 <= length (split "."%char fullname) ->
  opt_truthy (environ rt !! "OPENAI_API_KEY") = true ->
  chat_completions_create rt
    (request_for rt
       (constructed_prompt rt description fullname existing_code caller_info))
  = Return resp ->
  first_content resp = Return content ->
  validate_code rt (extract_code content) = Return true ->
  generate_code rt description fullname existing_code caller_info
  = (Return (Some (extract_code content)),
     io_trace
       (construct_prompt rt description fullname existing_code caller_info)
     ++ [ServiceCall
           (request_for rt
              (constructed_prompt rt description fullname existing_code
                 caller_info))]).
Proof.
  intros H Hkey Hresp Hcontent Hvalid.
  rewrite (generate_code_long_run _ _ _ _ _ H).
  now rewrite (guarded_key _ _ _ _ _ Hkey), Hresp, Hcontent, Hvalid.
Qed.

Lemma valid_answer_returned_witness :
  io_result
    (generate_code (sample_runtime (Some "k") None [] "x = (1, 2)")
       "A library" "lib.text" None None) = Return (Some "x = (1, 2)").
Proof.
  rewrite (valid_answer_returned
             (sample_runtime (Some "k") None [] "x = (1, 2)")
             "A library" "lib.text" None None
             (Response [Choice (Some "x = (1, 2)")]) "x = (1, 2)").
  - vm_compute. reflexivity.
  - vm_compute. lia.
  - reflexivity.
  - reflexivity.
  - reflexivity.
  - vm_compute. reflexivity.
Defined.

(** X17. When the answer is rejected by the parser with a [SyntaxError],
    [generate_code] prints [Generated code is not valid.] and returns
    [None]. *)
Theorem invalid_answer_reported
    (rt : runtime) (description fullname : string)
    (existing_code : option string) (caller_info : option dict)
    (resp : response) (content : string) (e : exc) :
  2 <= length (split "."%char fullname) ->
  opt_truthy (environ rt !! "OPENAI_API_KEY") = true ->
  chat_completions_create rt
    (request_for rt
       (constructed_prompt rt description fullname existing_code caller_info))
  = Return resp ->
  first_content resp = Return content ->
  ast_parse rt (extract_code content) = Raise e ->
  is_SyntaxError e = true ->
  generate_code rt description fullname existing_code caller_info
  = (Return None,
     io_trace
       (construct_prompt rt description fullname existing_code caller_info)
     ++ [ServiceCall
           (request_for rt
              (constructed_prompt rt description fullname existing_code
                 caller_info));
         Print "Generated code is not valid."]).
Proof.
  intros H Hkey Hresp Hcontent Hparse Hsyntax.
  rewrite (generate_code_long_run _ _ _ _ _ H).
  rewrite (guarded_key _ _ _ _ _ Hkey), Hresp, Hcontent.
  unfold validate_code. now rewrite Hparse, Hsyntax.
Qed.

Lemma invalid_answer_reported_witness :
  io_result
    (generate_code (sample_runtime (Some "k") None [] "print((1, 2)")
       "A library" "lib.text" None None) = Return None.
Proof.
  rewrite (invalid_answer_reported
             (sample_runtime (Some "k") None [] "print((1, 2)")
             "A library" "lib.text" None None
             (Response [Choice (Some "print((1, 2)")]) "print((1, 2)"
             (Exc SyntaxError "invalid syntax")).
  - reflexivity.
  - vm_compute. lia.
  - reflexivity.
  - reflexivity.
  - reflexivity.
  - vm_compute. reflexivity.
  - reflexivity.
Defined.

(** X18. When the parser fails on the answer with an exception that is
    not a [SyntaxError], [validate_code] lets it through, and the
    [except] clause of [generate_code] catches it: its message is printed
    and [None] is returned. *)
Theorem parser_failure_caught
    (rt : runtime) (description fullname : string)
    (existing_code : option string) (caller_info : option dict)
    (resp : response) (content : string) (e : exc) :
  2 <= length (split "."%char fullname) ->
  opt_truthy (environ rt !! "OPENAI_API_KEY") = true ->
  chat_completions_create rt
    (request_for rt
       (constructed_prompt rt description fullname existing_code caller_info))
  = Return resp ->
  first_content resp = Return content ->
  ast_parse rt (extract_code content) = Raise e ->
  is_SyntaxError e = false ->
  validate_code rt (extract_code content) = Raise e /\
  generate_code rt description fullname existing_code caller_info
  = (Return None,
     io_trace
       (construct_prompt rt description fullname existing_code caller_info)
     ++ [ServiceCall
           (request_for rt
              (constructed_prompt rt description fullname existing_code
                 caller_info));
         Print ("Error generating code: " +:+ exc_msg e)]).
Proof.
  intros H Hkey Hresp Hcontent Hparse Hsyntax.
  assert (validate_code rt (extract_code content) = Raise e) as Hvalid
    by (unfold validate_code; now rewrite Hparse, Hsyntax).
  split; [exact Hvalid |].
  rewrite (generate_code_long_run _ _ _ _ _ H).
  now rewrite (guarded_key _ _ _ _ _ Hkey), Hresp, Hcontent, Hvalid.
Qed.

Lemma parser_failure_caught_witness :
  io_result
    (generate_code
       (custom_runtime exhausted_parse
          (reply_service (Response [Choice (Some "x = 1")])))
       "A library" "lib.text" None None) = Return None.
Proof.
  rewrite (proj2
             (parser_failure_caught
                (custom_runtime exhausted_parse
                   (reply_service (Response [Choice (Some "x = 1")])))
                "A library" "lib.text" None None
                (Response [Choice (Some "x = 1")]) "x = 1"
                (Exc RecursionError "maximum recursion depth exceeded")
                ltac:(vm_compute; lia) eq_refl eq_refl eq_refl eq_refl
                eq_refl)).
  reflexivity.
Defined.

(** ** Trimming *)

Ltac ascii_cases c := destruct c as [[] [] [] [] [] [] [] []].

Section StripFacts.

(** A whitespace character at the head of a text is decided by the
    bytes that form it: text added after them does not change it. *)
Lemma space_width_app s w k :
  space_width s = S k -> space_width (s +:+ w) = S k.
Proof.
  intros H. destruct s as [|c [|d [|e r]]].
  - discriminate H.
  - ascii_cases c; vm_compute in H; try discriminate H;
      vm_compute; exact H.
  - ascii_cases c; try exact H; ascii_cases d; vm_compute in H;
      discriminate H.
  - exact H.
Qed.

Lemma space_width_le3 s : space_width s <= 3.
Proof.
  destruct s as [|c r]; [cbn; lia |].
  ascii_cases c; try (vm_compute; lia);
    (destruct r as [|d r]; [vm_compute; lia |]);
    ascii_cases d; try (vm_compute; lia);
    (destruct r as [|e r]; [vm_compute; lia |]);
    ascii_cases e; vm_compute; lia.
Qed.

Lemma space_width_le s : space_width s <= String.length s.
Proof.
  destruct s as [|c [|d [|e r]]].
  - cbn. lia.
  - ascii_cases c; vm_compute; lia.
  - ascii_cases c; try (vm_compute; lia); ascii_cases d; vm_compute; lia.
  - pose proof (space_width_le3 (String c (String d (String e r)))).
    cbn [String.length]. lia.
Qed.

(** [lstrip] stops at a text that is empty or does not begin with
    whitespace. *)
Lemma lstrip_from_result s : forall k,
  lstrip_from k s = "" \/ space_width (lstrip_from k s) = 0.
Proof.
  induction s as [|c s IH]; intros k; [now left |].
  cbn [lstrip_from]. destruct k as [|k]; [| apply IH].
  destruct (space_width (String c s)) as [|j] eqn:E; [now right | apply IH].
Qed.

Lemma lstrip_fixed s : space_width s = 0 -> lstrip s = s.
Proof.
  intros H. destruct s as [|c s]; [reflexivity |].
  unfold lstrip. cbn [lstrip_from]. now rewrite H.
Qed.

Lemma lstrip_idempotent s : lstrip (lstrip s) = lstrip s.
Proof.
  destruct (lstrip_from_result s 0) as [H | H]; unfold lstrip at 2 3.
  - now rewrite H.
  - now apply lstrip_fixed.
Qed.

(** Whitespace that fills a text is skipped in front of any other. *)
Lemma lstrip_from_app x w : forall k,
  k <= String.length x -> lstrip_from k x = "" ->
  lstrip_from k (x +:+ w) = lstrip w.
Proof.
  induction x as [|c x IH]; intros k Hk H.
  - cbn in Hk. assert (k = 0) as -> by lia. reflexivity.
  - change (String c x +:+ w) with (String c (x +:+ w)).
    cbn [lstrip_from String.length] in *. destruct k as [|k].
    + destruct (space_width (String c x)) as [|j] eqn:E; [discriminate |].
      pose proof (space_width_le (String c x)) as Hle.
      rewrite E in Hle. cbn [String.length] in Hle.
      change (String c (x +:+ w)) with (String c x +:+ w).
      rewrite (space_width_app _ w _ E).
      apply IH; [lia | exact H].
    + apply IH; [lia | exact H].
Qed.

Lemma all_space_true s : all_space s = true <-> lstrip s = "".
Proof. unfold all_space. destruct (lstrip s); split; congruence. Qed.

Lemma all_space_app x w :
  all_space x = true -> all_space w = true -> all_space (x +:+ w) = true.
Proof.
  rewrite !all_space_true. intros Hx Hw. unfold lstrip in *.
  rewrite (lstrip_from_app x w 0); [exact Hw | lia | exact Hx].
Qed.

(** [rstrip] cuts off a suffix made of whitespace. *)
Lemma rstrip_suffix s :
  exists w, s = rstrip s +:+ w /\ all_space w = true.
Proof.
  induction s as [|c s (w & Hs & Hw)]; [now exists "" |].
  cbn [rstrip]. destruct (all_space (String c s)) eqn:E.
  - now exists (String c s).
  - exists w. split; [| exact Hw].
    change (String c (rstrip s) +:+ w) with (String c (rstrip s +:+ w)).
    now rewrite <- Hs.
Qed.

Lemma rstrip_idempotent s : rstrip (rstrip s) = rstrip s.
Proof.
  induction s as [|c s IH]; [reflexivity |].
  cbn [rstrip]. destruct (all_space (String c s)) eqn:E; [reflexivity |].
  cbn [rstrip]. rewrite IH.
  destruct (all_space (String c (rstrip s))) eqn:E'; [| reflexivity].
  destruct (rstrip_suffix s) as (w & Hs & Hw).
  pose proof (all_space_app _ _ E' Hw) as Hall.
  change (String c (rstrip s) +:+ w) with (String c (rstrip s +:+ w)) in Hall.
  rewrite <- Hs in Hall. congruence.
Qed.

(** What [rstrip] leaves begins as the text did. *)
Lemma rstrip_keeps_head s : space_width s = 0 -> space_width (rstrip s) = 0.
Proof.
  intros H. destruct (rstrip_suffix s) as (w & Hs & _).
  destruct (space_width (rstrip s)) as [|k] eqn:E; [reflexivity |].
  apply (space_width_app _ w) in E. rewrite <- Hs in E. congruence.
Qed.

Lemma rstrip_nil : rstrip "" = "".
Proof. reflexivity. Qed.

(** Trimming twice is trimming once. *)
Lemma strip_idempotent s : strip (strip s) = strip s.
Proof.
  unfold strip.
  assert (lstrip (rstrip (lstrip s)) = rstrip (lstrip s)) as ->.
  { destruct (lstrip_from_result s 0) as [H | H]; unfold lstrip at 2 3.
    - now rewrite H.
    - apply lstrip_fixed. now apply rstrip_keeps_head. }
  apply rstrip_idempotent.
Qed.

End StripFacts.

Lemma prefix_app_l a b s :
  String.prefix (a +:+ b) s = true -> String.prefix a s = true.
Proof.
  intros H. apply prefix_drop in H. rewrite H, app_assoc. apply prefix_app.
Qed.

(** X19. An answer that, once trimmed, does not begin with a fence is
    returned as it is, trimmed: the second [strip] changes nothing. *)
Theorem extract_code_unfenced (content : string) :
  startswith fence (strip content) = false ->
  extract_code content = strip content.
Proof.
  intros H. unfold extract_code.
  change "```" with fence. rewrite H.
  assert (startswith "```python" (strip content) = false) as ->.
  { destruct (startswith "```python" (strip content)) eqn:E; [| reflexivity].
    unfold startswith in *. change "```python" with (fence +:+ "python") in E.
    apply prefix_app_l in E. congruence. }
  apply strip_idempotent.
Qed.

Lemma extract_code_unfenced_witness :
  extract_code ("  x = 1" +:+ nl) = strip ("  x = 1" +:+ nl).
Proof.
  apply extract_code_unfenced. vm_compute. reflexivity.
Defined.

(** X20. The text handed back by [generate_code] is trimmed: it neither
    begins nor ends with whitespace, so trimming it again returns it
    unchanged; and it is the first answer of the service with its fences
    removed. *)
Theorem returned_code_trimmed
    (rt : runtime) (description fullname : string)
    (existing_code : option string) (caller_info : option dict)
    (code : string) :
  io_result (generate_code rt description fullname existing_code caller_info)
  = Return (Some code) ->
  strip code = code /\
  exists resp content,
    chat_completions_create rt
      (request_for rt
         (constructed_prompt rt description fullname existing_code
            caller_info)) = Return resp /\
    first_content resp = Return content /\
    code = extract_code content.
Proof.
  intros H.
  destruct (Nat.lt_ge_cases (length (split "."%char fullname)) 2) as [Hs | Hs].
  { rewrite (generate_code_short _ _ _ _ _ Hs) in H. discriminate H. }
  rewrite (generate_code_long_run _ _ _ _ _ Hs) in H.
  unfold io_result in H. cbn [fst] in H.
  destruct (guarded_request_cases rt
              (constructed_prompt rt description fullname existing_code
                 caller_info))
    as [(_ & Hr & _) | (_ & _ & _ &
         [(resp & content & Hresp & Hcontent & _ & Hr) | (Hr & _)])];
    unfold io_result in Hr; rewrite Hr in H; try discriminate H.
  injection H as <-. split.
  - unfold extract_code. apply strip_idempotent.
  - now exists resp, content.
Qed.

Lemma returned_code_trimmed_witness :
  strip "x = (1, 2)" = "x = (1, 2)".
Proof.
  refine (proj1
            (returned_code_trimmed
               (sample_runtime (Some "k") None []
                  ("  " +:+ fence +:+ "python" +:+ nl +:+ "x = (1, 2)"
                   +:+ nl +:+ fence +:+ nl))
               "A library" "lib.text" None None "x = (1, 2)" _)).
  vm_compute. reflexivity.
Defined.

Lemma extract_code_plain_fence_witness :
  extract_code (fence +:+ nl +:+ "x = 1" +:+ nl +:+ fence)
  = strip (nl +:+ "x = 1" +:+ nl).
Proof.
  apply extract_code_plain_fence; vm_compute; reflexivity.
Defined.

(** ** The codebase context as a whole *)

Lemma add_module_append context item :
  add_module context item = context +:+ add_module "" item.
Proof.
  unfold add_module. destruct (snd item !! "code"); [reflexivity |].
  now rewrite app_nil_r.
Qed.

Lemma fold_add_module_blocks modules : forall context,
  fold_left add_module modules context
  = context
    +:+ fold_right (fun item rest => add_module "" item +:+ rest) ""
          modules.
Proof.
  induction modules as [|item modules IH]; intros context.
  - cbn. now rewrite app_nil_r.
  - cbn [fold_left fold_right]. rewrite IH, add_module_append.
    now rewrite app_assoc.
Qed.

(** X22. For a non-empty mapping the codebase context is the heading
    followed by the blocks of the modules in the order of the mapping, a
    module without [code] adding nothing; so a mapping none of whose
    modules has [code] gives the heading alone, not the empty text. *)
Theorem codebase_context_of_blocks (modules : list (string * dict)) :
  modules <> [] ->
  codebase_context_of modules
  = "Here is the existing codebase for reference:" +:+ nl +:+ nl
    +:+ fold_right (fun item rest => add_module "" item +:+ rest) ""
          modules
  /\
  (Forall (fun item => snd item !! "code" = None) modules ->
   codebase_context_of modules
   = "Here is the existing codebase for reference:" +:+ nl +:+ nl).
Proof.
  intros Hne.
  assert (codebase_context_of modules
          = ("Here is the existing codebase for reference:" +:+ nl +:+ nl)
            +:+ fold_right (fun item rest => add_module "" item +:+ rest) ""
                  modules) as Heq.
  { unfold codebase_context_of.
    destruct modules as [|item modules]; [congruence |].
    apply fold_add_module_blocks. }
  split; [rewrite Heq; now rewrite !app_assoc |].
  intros Hall. rewrite Heq.
  replace (fold_right (fun item rest => add_module "" item +:+ rest) ""
             modules) with "".
  { now rewrite app_nil_r. }
  clear Hne Heq. induction Hall as [|item modules Hitem _ IH]; [reflexivity |].
  cbn [fold_right]. rewrite <- IH. unfold add_module. now rewrite Hitem.
Qed.

Lemma codebase_context_of_blocks_witness :
  codebase_context_of [("lib.crypto", <["prompt" := "Hash functions"]> ∅)]
  = "Here is the existing codebase for reference:" +:+ nl +:+ nl.
Proof.
  refine (proj2
            (codebase_context_of_blocks
               [("lib.crypto", <["prompt" := "Hash functions"]> ∅)] _) _).
  - discriminate.
  - repeat constructor.
Defined.

(** X23. A dotted name that ends with a dot has an empty third segment:
    the request is then treated as one for a package, whatever the
    existing code, and every line of the caller's code that does not
    start with [import ] or [from ] counts as a usage of the symbol. *)
Theorem empty_third_segment
    (fullname code : string) (existing_code : option string) :
  3 <= length (split "."%char fullname) ->
  part (split "."%char fullname) 2 = "" ->
  select_template (function_name_of (split "."%char fullname)) existing_code
  = NewPackage /\
  forall line,
    In line (split LF code) ->
    startswith "import " line = false ->
    startswith "from " line = false ->
    In line (relevant_parts_of fullname code).
Proof.
  intros Hlen Hpart. split.
  - unfold select_template, function_name_of.
    destruct (2 <? length (split "."%char fullname)); [| reflexivity].
    now rewrite Hpart.
  - intros line Hin Himport Hfrom. unfold relevant_parts_of.
    destruct (Nat.leb_spec 2 (length (split "."%char fullname))); [| lia].
    destruct (Nat.leb_spec 3 (length (split "."%char fullname))); [| lia].
    apply in_or_app. right. apply filter_In. split; [exact Hin |].
    rewrite Hpart, Himport, Hfrom.
    now rewrite (prefix_contains "" line (prefix_nil line)).
Qed.

Lemma empty_third_segment_witness :
  In "x = 1" (relevant_parts_of "lib.text." ("import os" +:+ nl +:+ "x = 1")).
Proof.
  refine (proj2
            (empty_third_segment "lib.text." ("import os" +:+ nl +:+ "x = 1")
               None _ _) "x = 1" _ _ _).
  - vm_compute. lia.
  - reflexivity.
  - vm_compute. auto.
  - reflexivity.
  - reflexivity.
Defined.
